(** * A mutating admission webhook for Secrets: policy, patch builder, handler

    Shallow embedding of [webhook.go].  The Go source decides, for a Secret
    submitted to the cluster, whether the annotation
    [kubed.appscode.com/sync: "true"] has to be added, builds the JSON-Patch
    that adds it, and answers the admission review over HTTP.

    Conventions of the embedding.
    - A Go [map[string]string] is a [gmap string string]; a map variable that
      may be [nil] is an [option] of it ([None] is [nil]).
    - Go's [range] over a map visits every entry once, in an order the
      language leaves unspecified.  A function that ranges over a map takes
      the entries as an association list, in the order visited; [visits m l]
      says that [l] is one of the orders in which [m] can be visited.
    - [[]byte] and [string] are both [string]; an [error] is the text that
      its [Error()] method returns.
    - The JSON codecs, the Kubernetes deserializer and the connection under
      the [http.ResponseWriter] are library code: they are the fields of the
      class [Runtime], and every result below holds for all of them.
    - Calls to [glog] and [fmt.Println] only log and are left out. *)

From Stdlib Require Import ZArith String List Bool Lia.
From stdpp Require Import base option list gmap strings fin_maps.

Local Open Scope string_scope.
Local Open Scope Z_scope.
Local Open Scope list_scope.

Definition error := string.
Definition bytes := string.

(** The empty string, Go's zero value for [string]. *)
Definition nostr : string := EmptyString.

(** ** The Kubernetes API types the handler touches *)

Module metav1.
(** Constants of [k8s.io/apimachinery/pkg/apis/meta/v1]. *)
Definition NamespaceSystem : string := "kube-system".
Definition NamespacePublic : string := "kube-public".

Record ObjectMeta := {
  Name : string;
  Namespace : string;
  Labels : option (gmap string string);
  Annotations : option (gmap string string)
}.

Definition GetAnnotations (meta : ObjectMeta) : option (gmap string string) :=
  Annotations meta.

Record Status := { Message : string }.
End metav1.

Module corev1.
Record Secret := { ObjectMeta : metav1.ObjectMeta }.
Definition Name (s : Secret) : string := metav1.Name (ObjectMeta s).
Definition Namespace (s : Secret) : string := metav1.Namespace (ObjectMeta s).
End corev1.

Module runtime.
Record RawExtension := { Raw : bytes }.
End runtime.

Module v1beta1.
Inductive PatchType := PatchTypeJSONPatch.

Module AdmissionRequest.
Record t := {
  UID : string;
  Kind : string;
  Name : string;
  Namespace : string;
  Operation : string;
  UserInfo : string;
  Object : runtime.RawExtension
}.
End AdmissionRequest.

Module AdmissionResponse.
Record t := {
  UID : string;
  Allowed : bool;
  Result : option metav1.Status;
  Patch : option bytes;
  PatchType : option v1beta1.PatchType
}.

(** [AdmissionResponse{}]: every field at its zero value. *)
Definition zero : t :=
  {| UID := nostr; Allowed := false; Result := None; Patch := None;
     PatchType := None |}.

(** [resp.UID = uid] *)
Definition setUID (resp : t) (uid : string) : t :=
  {| UID := uid; Allowed := Allowed resp; Result := Result resp;
     Patch := Patch resp; PatchType := PatchType resp |}.
End AdmissionResponse.

Module AdmissionReview.
Record t := {
  Request : option AdmissionRequest.t;
  Response : option AdmissionResponse.t
}.

(** [AdmissionReview{}] *)
Definition zero : t := {| Request := None; Response := None |}.
End AdmissionReview.
End v1beta1.

Module Req := v1beta1.AdmissionRequest.
Module Resp := v1beta1.AdmissionResponse.
Module Review := v1beta1.AdmissionReview.

(** ** Package-level variables and constants *)

Definition ignoredNamespaces : list string :=
  [metav1.NamespaceSystem; metav1.NamespacePublic].

Definition syncAnnotationKey : string := "kubed.appscode.com/sync".
Definition originAnnotationKey : string := "kubed.appscode.com/origin".
Definition certManagerAnnotationKey : string := "cert-manager.io/certificate-name".

(** [interface{}] holding one of the two dynamic types the builder stores. *)
Inductive value :=
  | MapValue (m : gmap string string)
  | StringValue (s : string).

Record patchOperation := {
  Op : string;
  Path : string;
  Value : value
}.

(** ** Go maps *)

(** [m[key]] on a possibly nil map: the zero value when the key is missing. *)
Definition index (m : option (gmap string string)) (key : string) : string :=
  match m with
  | None => nostr
  | Some m => default nostr (m !! key)
  end.

(** [_, ok := m[key]] *)
Definition has (m : gmap string string) (key : string) : bool :=
  match m !! key with Some _ => true | None => false end.

(** [l] is an order in which [range] can visit the entries of [m]. *)
Definition visits (m : gmap string string) (l : list (string * string)) : Prop :=
  l ≡ₚ map_to_list m.

(** ** Policy evaluator *)

(** [true] admits the object to the policy, [false] skips it. *)
Fixpoint admissionRequired (ignoredList : list string) (metadata : metav1.ObjectMeta) : bool :=
  match ignoredList with
  | [] => true
  | namespace :: rest =>
      if String.eqb (metav1.Namespace metadata) namespace then false
      else admissionRequired rest metadata
  end.

(** [true] is the decision Mutate, [false] the decision Skip. *)
Definition mutationRequired (ignoredList : list string) (metadata : metav1.ObjectMeta) : bool :=
  let required := admissionRequired ignoredList metadata in
  let annotations :=
    match metav1.GetAnnotations metadata with
    | None => ∅
    | Some a => a
    end in
  if required then
    if has annotations certManagerAnnotationKey then
      if has annotations originAnnotationKey then false else true
    else required
  else required.

(** ** Patch builder *)

(** One turn of the loop body of [updateAnnotation]: from the current
    [target] and the patch accumulated so far to the next ones.  The first
    branch reassigns [target] to a fresh empty map before it appends. *)
Definition updateAnnotation_step
    (st : option (gmap string string) * list patchOperation)
    (entry : string * string) : option (gmap string string) * list patchOperation :=
  let '(target, patch) := st in
  let '(key, value) := entry in
  if match target with None => true | Some _ => false end
     || String.eqb (index target key) nostr
  then
    (Some ∅,
     patch ++ [ {| Op := "add";
                   Path := "/metadata/annotations";
                   Value := MapValue {[ key := value ]} |} ])
  else
    (target,
     patch ++ [ {| Op := "replace";
                   Path := "/metadata/annotations/" +:+ key;
                   Value := StringValue value |} ]).

(** [added] lists the entries of the Go map in the order [range] visits
    them; the named result [patch] starts out nil. *)
Definition updateAnnotation
    (target : option (gmap string string)) (added : list (string * string))
    : list patchOperation :=
  snd (fold_left updateAnnotation_step added (target, [])).

(** The two operations the builder can emit for an entry. *)
Definition add_annotations (key value : string) : patchOperation :=
  {| Op := "add"; Path := "/metadata/annotations";
     Value := MapValue {[ key := value ]} |}.

Definition replace_annotation (key value : string) : patchOperation :=
  {| Op := "replace"; Path := "/metadata/annotations/" +:+ key;
     Value := StringValue value |}.

(** The object carries the annotation [key], whatever its value. *)
Definition carries (metadata : metav1.ObjectMeta) (key : string) : Prop :=
  match metav1.Annotations metadata with
  | Some m => is_Some (m !! key)
  | None => False
  end.

(** ** Library code the handler calls *)

Class Runtime := {
  (** [deserializer.Decode(body, nil, &ar)]: the review left in [ar], which
      starts out as [AdmissionReview{}], and the error if there is one. *)
  deserializer_Decode : bytes -> Review.t * option error;
  (** [json.Unmarshal(raw, &secret)] *)
  json_Unmarshal_Secret : bytes -> corev1.Secret + error;
  (** [json.Marshal] at type [[]patchOperation] *)
  json_Marshal_patch : list patchOperation -> bytes + error;
  (** [json.Marshal] at type [v1beta1.AdmissionReview] *)
  json_Marshal_review : Review.t -> bytes + error;
  (** What the connection answers when the server writes these bytes to it:
      [None] when they are sent. *)
  conn_Write : bytes -> option error
}.

(** A Go computation either returns or panics. *)
Inductive go (A : Type) : Type :=
  | Return (a : A)
  | Panic (reason : string).
Arguments Return {A} a.
Arguments Panic {A} reason.

Definition go_bind {A B : Type} (c : go A) (k : A -> go B) : go B :=
  match c with
  | Return a => k a
  | Panic reason => Panic reason
  end.

Notation "x <- c ;; k" := (go_bind c (fun x => k))
  (at level 100, c at next level, right associativity).

Definition createPatch `{Runtime}
    (availableAnnotations : option (gmap string string))
    (annotations : list (string * string)) : bytes + error :=
  let patch := [] ++ updateAnnotation availableAnnotations annotations in
  json_Marshal_patch patch.

(** The response that only carries a status message. *)
Definition failed (err : error) : Resp.t :=
  {| Resp.UID := nostr; Resp.Allowed := false;
     Resp.Result := Some {| metav1.Message := err |};
     Resp.Patch := None; Resp.PatchType := None |}.

(** [req := ar.Request] is a pointer; the log line that opens [mutate] reads
    [req.Kind], which panics on a nil [req].  [availableAnnotations] is
    declared and never assigned, so it is nil at the call of [createPatch].
    The map literal [annotations] has one entry, hence one visiting order. *)
Definition mutate `{Runtime} (ar : Review.t) : go Resp.t :=
  match Review.Request ar with
  | None => Panic "invalid memory address or nil pointer dereference"
  | Some req =>
      let availableAnnotations : option (gmap string string) := None in
      match json_Unmarshal_Secret (runtime.Raw (Req.Object req)) with
      | inr err => Return (failed err)
      | inl secret =>
          let objectMeta := corev1.ObjectMeta secret in
          if negb (mutationRequired ignoredNamespaces objectMeta) then
            Return {| Resp.UID := nostr; Resp.Allowed := true;
                      Resp.Result := None; Resp.Patch := None;
                      Resp.PatchType := None |}
          else
            let annotations := [(syncAnnotationKey, "true")] in
            match createPatch availableAnnotations annotations with
            | inr err => Return (failed err)
            | inl patchBytes =>
                Return {| Resp.UID := nostr; Resp.Allowed := true;
                          Resp.Result := None; Resp.Patch := Some patchBytes;
                          Resp.PatchType := Some v1beta1.PatchTypeJSONPatch |}
            end
      end
  end.

(** ** The HTTP side *)

Definition newline : string := String (Ascii.ascii_of_nat 10) EmptyString.

Module http.
Definition StatusOK : Z := 200.
Definition StatusBadRequest : Z := 400.
Definition StatusUnsupportedMediaType : Z := 415.
Definition StatusInternalServerError : Z := 500.

(** [Body] is [None] for a nil [r.Body]; otherwise it holds what
    [ioutil.ReadAll(r.Body)] returns, the data read and the error if any.
    [Header] is keyed by canonical header names. *)
Record Request := {
  Body : option (bytes * option error);
  Header : gmap string (list string);
  URL_Path : string
}.

(** [h.Get(key)] for a [key] already in canonical form: the first value
    stored under it, or the empty string. *)
Definition Header_Get (h : gmap string (list string)) (key : string) : string :=
  match h !! key with
  | Some (v :: _) => v
  | _ => nostr
  end.

(** What the client has been sent: the status line, once written, and the
    chunks of the body in order. *)
Record ResponseWriter := {
  status : option Z;
  sent : list bytes
}.

Definition fresh : ResponseWriter := {| status := None; sent := [] |}.

(** The first call fixes the status; later calls are ignored. *)
Definition WriteHeader (w : ResponseWriter) (code : Z) : ResponseWriter :=
  match status w with
  | Some _ => w
  | None => {| status := Some code; sent := sent w |}
  end.

(** [w.Write(b)] sends the header with status 200 first when none has been
    sent, then hands the bytes to the connection. *)
Definition Write `{Runtime} (w : ResponseWriter) (b : bytes)
    : ResponseWriter * option error :=
  let w := WriteHeader w StatusOK in
  match conn_Write b with
  | Some err => (w, Some err)
  | None => ({| status := status w; sent := sent w ++ [b] |}, None)
  end.

(** [http.Error(w, msg, code)]: header with [code], then the message and a
    newline as the body. *)
Definition Error `{Runtime} (w : ResponseWriter) (msg : string) (code : Z)
    : ResponseWriter :=
  fst (Write (WriteHeader w code) (msg +:+ newline)).
End http.

(** What one run of the handler leaves behind: the writer, and the local
    variable [admissionReview] when the run got as far as building it. *)
Record served := {
  writer : http.ResponseWriter;
  envelope : option Review.t
}.

(** The local variable [body] once the request has been read: it stays nil,
    hence empty, when [r.Body] is nil or when reading it fails. *)
Definition read_body (r : http.Request) : bytes :=
  match http.Body r with
  | Some (data, None) => data
  | _ => nostr
  end.

Definition serve `{Runtime} (w : http.ResponseWriter) (r : http.Request) : go served :=
  let body := read_body r in
  if Nat.eqb (String.length body) 0 then
    Return {| writer := http.Error w "empty body" http.StatusBadRequest;
              envelope := None |}
  else
    let contentType := http.Header_Get (http.Header r) "Content-Type" in
    if negb (String.eqb contentType "application/json") then
      Return {| writer := http.Error w "invalid Content-Type, expect `application/json`"
                            http.StatusUnsupportedMediaType;
                envelope := None |}
    else
      let '(ar, err) := deserializer_Decode body in
      admissionResponse <-
        match err with
        | Some err => Return (Some (failed err))
        | None =>
            if String.eqb (http.URL_Path r) "/mutate" then
              resp <- mutate ar ;; Return (Some resp)
            else Return None
        end ;;
      let admissionReview :=
        match admissionResponse with
        | Some resp =>
            {| Review.Request := None;
               Review.Response :=
                 Some match Review.Request ar with
                      | Some req => Resp.setUID resp (Req.UID req)
                      | None => resp
                      end |}
        | None => Review.zero
        end in
      let '(resp, w) :=
        match json_Marshal_review admissionReview with
        | inr err =>
            (nostr,
             http.Error w ("could not encode response: " +:+ err)
               http.StatusInternalServerError)
        | inl resp => (resp, w)
        end in
      let '(w, werr) := http.Write w resp in
      let w :=
        match werr with
        | Some err =>
            http.Error w ("could not write response: " +:+ err)
              http.StatusInternalServerError
        | None => w
        end in
      Return {| writer := w; envelope := Some admissionReview |}.

(** ** A runtime to run the handler on sample requests

    Codecs for a handful of bodies, enough to execute [serve] and [mutate].
    The patch encoder prints JSON without escaping, which is what
    [json.Marshal] prints for keys and values made of plain letters, digits
    and punctuation other than the quote and the backslash. *)

Module Sample.
Definition dq : string := String (Ascii.ascii_of_nat 34) EmptyString.
Definition quoted (s : string) : string := dq +:+ s +:+ dq.

Fixpoint commas (l : list string) : string :=
  match l with
  | [] => nostr
  | [s] => s
  | s :: rest => s +:+ "," +:+ commas rest
  end.

Definition member (k v : string) : string := quoted k +:+ ":" +:+ v.

Definition print_map (m : gmap string string) : string :=
  "{" +:+ commas (map (fun kv => member (fst kv) (quoted (snd kv))) (map_to_list m)) +:+ "}".

Definition print_value (v : value) : string :=
  match v with
  | MapValue m => print_map m
  | StringValue s => quoted s
  end.

Definition print_op (op : patchOperation) : string :=
  "{" +:+ commas [member "op" (quoted (Op op));
                  member "path" (quoted (Path op));
                  member "value" (print_value (Value op))] +:+ "}".

Definition print_patch (patch : list patchOperation) : string :=
  match patch with
  | [] => "null"
  | _ => "[" +:+ commas (map print_op patch) +:+ "]"
  end.

(** The reply in a readable form: the fields in their JSON order, the
    patch as text. *)
Definition print_response (resp : Resp.t) : string :=
  "{" +:+ commas
    ([member "uid" (quoted (Resp.UID resp));
      member "allowed" (if Resp.Allowed resp then "true" else "false")]
     ++ match Resp.Result resp with
        | Some st => [member "status" ("{" +:+ member "message" (quoted (metav1.Message st)) +:+ "}")]
        | None => []
        end
     ++ match Resp.Patch resp with
        | Some p => [member "patch" p]
        | None => []
        end
     ++ match Resp.PatchType resp with
        | Some v1beta1.PatchTypeJSONPatch => [member "patchType" (quoted "JSONPatch")]
        | None => []
        end) +:+ "}".

Definition print_review (rv : Review.t) : string :=
  match Review.Response rv with
  | Some resp => "{" +:+ member "response" (print_response resp) +:+ "}"
  | None => "{}"
  end.

Definition request (uid raw : string) : Req.t :=
  {| Req.UID := uid; Req.Kind := "Secret"; Req.Name := "tls";
     Req.Namespace := "default"; Req.Operation := "CREATE";
     Req.UserInfo := "system:serviceaccount:cert-manager:cert-manager";
     Req.Object := {| runtime.Raw := raw |} |}.

Definition review (uid raw : string) : Review.t :=
  {| Review.Request := Some (request uid raw); Review.Response := None |}.

Definition secret (ns : string) (ann : option (gmap string string)) : corev1.Secret :=
  {| corev1.ObjectMeta :=
       {| metav1.Name := "tls"; metav1.Namespace := ns;
          metav1.Labels := None; metav1.Annotations := ann |} |}.

Definition issued : gmap string string :=
  {[ certManagerAnnotationKey := "tls" ]}.
Definition copied : gmap string string :=
  <[ originAnnotationKey := "source" ]> issued.

Definition decode (body : bytes) : Review.t * option error :=
  if String.eqb body "review/plain" then (review "705ab4f5" "secret/plain", None)
  else if String.eqb body "review/issued" then (review "11d0c1e2" "secret/issued", None)
  else if String.eqb body "review/copied" then (review "9a3f77b0" "secret/copied", None)
  else if String.eqb body "review/system" then (review "c0ffee00" "secret/system", None)
  else if String.eqb body "review/not-a-secret" then (review "5eed5eed" "[]", None)
  else if String.eqb body "review/no-request" then (Review.zero, None)
  else (Review.zero, Some "couldn't get version/kind; json parse error").

Definition unmarshal (raw : bytes) : corev1.Secret + error :=
  if String.eqb raw "secret/plain" then inl (secret "default" None)
  else if String.eqb raw "secret/issued" then inl (secret "default" (Some issued))
  else if String.eqb raw "secret/copied" then inl (secret "default" (Some copied))
  else if String.eqb raw "secret/system" then inl (secret "kube-system" (Some issued))
  else inr "json: cannot unmarshal array into Go value of type v1.Secret".

Definition rt : Runtime := {|
  deserializer_Decode := decode;
  json_Unmarshal_Secret := unmarshal;
  json_Marshal_patch := fun patch => inl (print_patch patch);
  json_Marshal_review := fun rv => inl (print_review rv);
  conn_Write := fun _ => None
|}.

(** The reply that grants the request and adds the sync annotation. *)
Definition patched (uid : string) : Resp.t :=
  {| Resp.UID := uid; Resp.Allowed := true; Resp.Result := None;
     Resp.Patch := Some (print_patch [add_annotations syncAnnotationKey "true"]);
     Resp.PatchType := Some v1beta1.PatchTypeJSONPatch |}.

Definition reply (resp : Resp.t) : Review.t :=
  {| Review.Request := None; Review.Response := Some resp |}.

(** A run that sent the envelope [rv] with status 200. *)
Definition delivered (rv : Review.t) : served :=
  {| writer := {| http.status := Some http.StatusOK;
                  http.sent := [print_review rv] |};
     envelope := Some rv |}.

(** A client-side decoder, defined on the one reply it is used on. *)
Definition read_back (b : bytes) : option Review.t :=
  if String.eqb b (print_review (reply (patched "705ab4f5")))
  then Some (reply (patched "705ab4f5"))
  else None.

Definition post (path body : string) : http.Request :=
  {| http.Body := Some (body, None);
     http.Header := {[ "Content-Type" := ["application/json"] ]};
     http.URL_Path := path |}.
End Sample.


(** ** Runtimes for the error paths

    The sample codecs, with one encoder that fails or a connection that
    refuses every write. *)

Module Faulty.
Definition no_patch : Runtime := {|
  deserializer_Decode := Sample.decode;
  json_Unmarshal_Secret := Sample.unmarshal;
  json_Marshal_patch := fun _ => inr "json: unsupported value";
  json_Marshal_review := fun rv => inl (Sample.print_review rv);
  conn_Write := fun _ => None
|}.

Definition no_review : Runtime := {|
  deserializer_Decode := Sample.decode;
  json_Unmarshal_Secret := Sample.unmarshal;
  json_Marshal_patch := fun patch => inl (Sample.print_patch patch);
  json_Marshal_review := fun _ => inr "json: unsupported value";
  conn_Write := fun _ => None
|}.

Definition no_conn : Runtime := {|
  deserializer_Decode := Sample.decode;
  json_Unmarshal_Secret := Sample.unmarshal;
  json_Marshal_patch := fun patch => inl (Sample.print_patch patch);
  json_Marshal_review := fun rv => inl (Sample.print_review rv);
  conn_Write := fun _ => Some "write: broken pipe"
|}.
End Faulty.

(** * Properties *)

(** ** Policy evaluator *)

Lemma admissionRequired_true ignoredList metadata :
  ~ In (metav1.Namespace metadata) ignoredList ->
  admissionRequired ignoredList metadata = true.
Proof.
  induction ignoredList as [|namespace rest IH]; simpl; intros Hnot.
  - reflexivity.
  - destruct (String.eqb_spec (metav1.Namespace metadata) namespace) as [Heq|Hne].
    + exfalso. apply Hnot. left. symmetry. exact Heq.
    + apply IH. intros Hin. apply Hnot. right. exact Hin.
Qed.

Lemma admissionRequired_false ignoredList metadata :
  In (metav1.Namespace metadata) ignoredList ->
  admissionRequired ignoredList metadata = false.
Proof.
  induction ignoredList as [|namespace rest IH]; simpl; intros Hin.
  - contradiction.
  - destruct (String.eqb_spec (metav1.Namespace metadata) namespace) as [Heq|Hne].
    + reflexivity.
    + destruct Hin as [Heq|Hin]; [congruence | exact (IH Hin)].
Qed.

Lemma has_carries metadata key :
  has (match metav1.GetAnnotations metadata with None => ∅ | Some a => a end) key = true
  <-> carries metadata key.
Proof.
  unfold has, carries, metav1.GetAnnotations.
  destruct (metav1.Annotations metadata) as [m|].
  - destruct (m !! key) as [v|] eqn:E.
    + split; [eauto | reflexivity].
    + split; [discriminate | intros [v Hv]; discriminate].
  - rewrite lookup_empty. split; [discriminate | contradiction].
Qed.

Lemma has_not_carries metadata key :
  has (match metav1.GetAnnotations metadata with None => ∅ | Some a => a end) key = false
  <-> ~ carries metadata key.
Proof.
  rewrite <- has_carries. destruct (has _ key); split; congruence.
Qed.

(** C1. Outside the exempt namespaces the decision is Mutate ([true]) for an
    object without the issuer marker [cert-manager.io/certificate-name],
    Mutate for one with the issuer marker and without the origin marker
    [kubed.appscode.com/origin], and Skip ([false]) for one with both.  An
    object with no annotation map at all carries no marker. *)
Theorem mutationRequired_outside_exempt (metadata : metav1.ObjectMeta) :
  ~ In (metav1.Namespace metadata) ignoredNamespaces ->
  (~ carries metadata certManagerAnnotationKey ->
     mutationRequired ignoredNamespaces metadata = true)
  /\ (carries metadata certManagerAnnotationKey ->
      ~ carries metadata originAnnotationKey ->
      mutationRequired ignoredNamespaces metadata = true)
  /\ (carries metadata certManagerAnnotationKey ->
      carries metadata originAnnotationKey ->
      mutationRequired ignoredNamespaces metadata = false).
Proof.
  intros Hns. unfold mutationRequired.
  rewrite (admissionRequired_true _ _ Hns).
  repeat split.
  - intros Hcm. apply has_not_carries in Hcm. by rewrite Hcm.
  - intros Hcm Ho. apply has_carries in Hcm. apply has_not_carries in Ho.
    by rewrite Hcm, Ho.
  - intros Hcm Ho. apply has_carries in Hcm. apply has_carries in Ho.
    by rewrite Hcm, Ho.
Qed.

(** C2. In an exempt namespace ([kube-system], [kube-public]) the decision is
    Skip ([false]) whatever the annotations are: the issuer marker does not
    bring Mutate back. *)
Theorem mutationRequired_exempt (metadata : metav1.ObjectMeta) :
  In (metav1.Namespace metadata) ignoredNamespaces ->
  mutationRequired ignoredNamespaces metadata = false.
Proof.
  intros Hns. unfold mutationRequired.
  by rewrite (admissionRequired_false _ _ Hns).
Qed.

Lemma default_not_exempt : ~ In "default" ignoredNamespaces.
Proof. simpl. intros [H|[H|[]]]; discriminate. Qed.

Lemma mutationRequired_outside_exempt_witness :
  mutationRequired ignoredNamespaces
    (corev1.ObjectMeta (Sample.secret "default" None)) = true
  /\ mutationRequired ignoredNamespaces
       (corev1.ObjectMeta (Sample.secret "default" (Some Sample.issued))) = true
  /\ mutationRequired ignoredNamespaces
       (corev1.ObjectMeta (Sample.secret "default" (Some Sample.copied))) = false.
Proof.
  split; [|split].
  - refine (proj1 (mutationRequired_outside_exempt
                     (corev1.ObjectMeta (Sample.secret "default" None))
                     default_not_exempt) _).
    simpl. intros [].
  - refine (proj1 (proj2 (mutationRequired_outside_exempt
                     (corev1.ObjectMeta (Sample.secret "default" (Some Sample.issued)))
                     default_not_exempt)) _ _).
    + exists "tls". vm_compute. reflexivity.
    + intros [v Hv]. vm_compute in Hv. discriminate.
  - refine (proj2 (proj2 (mutationRequired_outside_exempt
                     (corev1.ObjectMeta (Sample.secret "default" (Some Sample.copied)))
                     default_not_exempt)) _ _).
    + exists "tls". vm_compute. reflexivity.
    + exists "source". vm_compute. reflexivity.
Defined.

Lemma mutationRequired_exempt_witness :
  mutationRequired ignoredNamespaces
    (corev1.ObjectMeta (Sample.secret "kube-system" (Some Sample.issued))) = false
  /\ mutationRequired ignoredNamespaces
       (corev1.ObjectMeta (Sample.secret "kube-public" None)) = false.
Proof.
  split.
  - apply (mutationRequired_exempt
             (corev1.ObjectMeta (Sample.secret "kube-system" (Some Sample.issued)))).
    simpl. left. reflexivity.
  - apply (mutationRequired_exempt
             (corev1.ObjectMeta (Sample.secret "kube-public" None))).
    simpl. right. left. reflexivity.
Defined.

(** ** Patch builder *)

Section Builder.
Implicit Types (target : option (gmap string string)).
Implicit Types (patch : list patchOperation) (l : list (string * string)).

Lemma index_empty key : index (Some ∅) key = nostr.
Proof. unfold index. by rewrite lookup_empty. Qed.

Lemma step_add target patch key value :
  index target key = nostr ->
  updateAnnotation_step (target, patch) (key, value)
  = (Some ∅, patch ++ [add_annotations key value]).
Proof.
  intros Hk. unfold updateAnnotation_step. rewrite Hk.
  rewrite String.eqb_refl, orb_true_r. reflexivity.
Qed.

Lemma step_replace target patch key value :
  index target key <> nostr ->
  updateAnnotation_step (target, patch) (key, value)
  = (target, patch ++ [replace_annotation key value]).
Proof.
  intros Hk. unfold updateAnnotation_step.
  destruct target as [m|]; [|by destruct Hk].
  apply String.eqb_neq in Hk. rewrite Hk. reflexivity.
Qed.

(** Whatever the branch, one turn appends one operation, and an entry
    that tests empty before the turn still does after it. *)
Lemma step_shape target patch entry :
  exists target' op,
    updateAnnotation_step (target, patch) entry = (target', patch ++ [op])
    /\ forall key, index target key = nostr -> index target' key = nostr.
Proof.
  destruct entry as [key value].
  destruct (decide (index target key = nostr)) as [Hk|Hk].
  - eexists _, _. split; [by apply step_add|].
    intros k _. apply index_empty.
  - eexists _, _. split; [by apply step_replace|]. done.
Qed.

Lemma loop_length l target patch :
  length (snd (fold_left updateAnnotation_step l (target, patch)))
  = (length patch + length l)%nat.
Proof.
  revert target patch. induction l as [|entry l IH]; intros target patch; cbn [fold_left].
  - simpl. lia.
  - destruct (step_shape target patch entry) as (t' & op & -> & _).
    rewrite IH, length_app. simpl. lia.
Qed.

(** Operations already in the patch stay where they are. *)
Lemma loop_keeps l target patch i op :
  patch !! i = Some op ->
  snd (fold_left updateAnnotation_step l (target, patch)) !! i = Some op.
Proof.
  revert target patch. induction l as [|entry l IH]; intros target patch Hi; cbn [fold_left].
  - exact Hi.
  - destruct (step_shape target patch entry) as (t' & op' & -> & _).
    apply IH. by apply lookup_app_l_Some.
Qed.

Lemma loop_add l target patch i key value :
  l !! i = Some (key, value) ->
  index target key = nostr ->
  snd (fold_left updateAnnotation_step l (target, patch)) !! (length patch + i)%nat
  = Some (add_annotations key value).
Proof.
  revert target patch i.
  induction l as [|entry l IH]; intros target patch i Hi Hk; [done|].
  destruct i as [|i]; cbn [fold_left]; simpl in Hi.
  - injection Hi as ->. rewrite (step_add _ _ _ _ Hk).
    apply loop_keeps. rewrite Nat.add_0_r. apply list_lookup_middle. done.
  - destruct (step_shape target patch entry) as (t' & op & -> & Hkeep).
    specialize (IH t' (patch ++ [op]) i Hi (Hkeep _ Hk)).
    rewrite length_app in IH. simpl in IH.
    by replace (length patch + S i)%nat with (length patch + 1 + i)%nat by lia.
Qed.

Lemma loop_replace l target patch i key value :
  l !! i = Some (key, value) ->
  index target key <> nostr ->
  (forall j k v, (j < i)%nat -> l !! j = Some (k, v) -> index target k <> nostr) ->
  snd (fold_left updateAnnotation_step l (target, patch)) !! (length patch + i)%nat
  = Some (replace_annotation key value).
Proof.
  revert patch i.
  induction l as [|entry l IH]; intros patch i Hi Hk Hbefore; [done|].
  destruct i as [|i]; cbn [fold_left]; simpl in Hi.
  - injection Hi as ->. rewrite (step_replace _ _ _ _ Hk).
    apply loop_keeps. rewrite Nat.add_0_r. apply list_lookup_middle. done.
  - destruct entry as [k v].
    rewrite (step_replace _ _ _ _ (Hbefore 0%nat k v ltac:(lia) eq_refl)).
    assert (Hrest : forall j k0 v0, (j < i)%nat -> l !! j = Some (k0, v0) ->
              index target k0 <> nostr).
    { intros j k0 v0 Hj Hl. apply (Hbefore (S j) k0 v0); [lia | exact Hl]. }
    specialize (IH (patch ++ [replace_annotation k v]) i Hi Hk Hrest).
    rewrite length_app in IH. simpl in IH.
    by replace (length patch + S i)%nat with (length patch + 1 + i)%nat by lia.
Qed.

(** After the first entry that tests empty, [target] is the empty map and
    every later entry is added, whatever [target] held for it at first. *)
Lemma loop_add_after l target patch j k v i key value :
  (j < i)%nat ->
  l !! j = Some (k, v) ->
  index target k = nostr ->
  l !! i = Some (key, value) ->
  snd (fold_left updateAnnotation_step l (target, patch)) !! (length patch + i)%nat
  = Some (add_annotations key value).
Proof.
  revert target patch j i.
  induction l as [|entry l IH]; intros target patch j i Hji Hj Hk Hi; [done|].
  destruct i as [|i]; [lia|].
  destruct j as [|j]; cbn [fold_left]; simpl in Hi, Hj.
  - injection Hj as ->. rewrite (step_add _ _ _ _ Hk).
    pose proof (loop_add l (Some ∅) (patch ++ [add_annotations k v]) i key value
                  Hi (index_empty key)) as Hadd.
    rewrite length_app in Hadd. simpl in Hadd.
    by replace (length patch + S i)%nat with (length patch + 1 + i)%nat by lia.
  - destruct (step_shape target patch entry) as (t' & op & -> & Hkeep).
    specialize (IH t' (patch ++ [op]) j i ltac:(lia) Hj (Hkeep _ Hk) Hi).
    rewrite length_app in IH. simpl in IH.
    by replace (length patch + S i)%nat with (length patch + 1 + i)%nat by lia.
Qed.

(** Every entry of the map shows up at some position of a visiting order. *)
Lemma visits_lookup (added : gmap string string) l key value :
  visits added l -> added !! key = Some value ->
  exists i, l !! i = Some (key, value).
Proof.
  unfold visits. intros Hperm Hk.
  apply list_elem_of_lookup. rewrite Hperm.
  by apply elem_of_map_to_list.
Qed.

Lemma visits_singleton key value l :
  visits {[ key := value ]} l -> l = [(key, value)].
Proof.
  unfold visits. rewrite map_to_list_singleton.
  apply Permutation_singleton_r.
Qed.
End Builder.

(** C5. For every key of the desired annotations that is missing or empty in
    the existing ones, which is the case of every key when the existing map
    is nil or empty, the builder emits at the key's turn the operation
    [add] on the whole container [/metadata/annotations] with the one-key
    map [{key: value}] as value, and it emits one operation per key.  In
    particular, from no or empty existing annotations and the single desired
    annotation [{k: v}] the patch is that one [add]. *)
Theorem updateAnnotation_add_missing :
  (forall (target : option (gmap string string)) (added : gmap string string)
          (l : list (string * string)) (key value : string),
      visits added l ->
      added !! key = Some value ->
      index target key = nostr ->
      length (updateAnnotation target l) = size added
      /\ exists i, l !! i = Some (key, value)
           /\ updateAnnotation target l !! i
              = Some {| Op := "add"; Path := "/metadata/annotations";
                        Value := MapValue {[ key := value ]} |})
  /\ (forall (target : option (gmap string string)) (l : list (string * string))
             (key value : string),
      target = None \/ target = Some ∅ ->
      visits {[ key := value ]} l ->
      updateAnnotation target l
      = [ {| Op := "add"; Path := "/metadata/annotations";
             Value := MapValue {[ key := value ]} |} ]).
Proof.
  split.
  - intros target added l key value Hvis Hk Hempty. split.
    + unfold updateAnnotation. rewrite loop_length. simpl.
      unfold visits in Hvis. rewrite Hvis. apply length_map_to_list.
    + destruct (visits_lookup added l key value Hvis Hk) as [i Hi].
      exists i. split; [exact Hi|].
      exact (loop_add l target [] i key value Hi Hempty).
  - intros target l key value Htarget Hvis.
    rewrite (visits_singleton key value l Hvis).
    unfold updateAnnotation. cbn [fold_left].
    rewrite step_add; [reflexivity|].
    destruct Htarget as [-> | ->]; [reflexivity | apply index_empty].
Qed.

Lemma updateAnnotation_add_missing_witness :
  (length (updateAnnotation (Some {[ "team" := "payments" ]}) [("k", "v")])
   = size ({[ "k" := "v" ]} : gmap string string)
   /\ exists i, [("k", "v")] !! i = Some ("k", "v")
        /\ updateAnnotation (Some {[ "team" := "payments" ]}) [("k", "v")] !! i
           = Some {| Op := "add"; Path := "/metadata/annotations";
                     Value := MapValue {[ "k" := "v" ]} |})
  /\ updateAnnotation (Some ∅) [("k", "v")]
     = [ {| Op := "add"; Path := "/metadata/annotations";
            Value := MapValue {[ "k" := "v" ]} |} ].
Proof.
  split.
  - apply (proj1 updateAnnotation_add_missing
             (Some {[ "team" := "payments" ]}) {[ "k" := "v" ]} [("k", "v")]
             "k" "v").
    + unfold visits. rewrite map_to_list_singleton. reflexivity.
    + apply lookup_singleton_eq.
    + vm_compute. reflexivity.
  - apply (proj2 updateAnnotation_add_missing (Some ∅) [("k", "v")] "k" "v").
    + right. reflexivity.
    + unfold visits. rewrite map_to_list_singleton. reflexivity.
Defined.

(** C3. A key that holds a non-empty value in the existing annotations is
    owed a [replace] on its own path, and the builder does not always emit
    it.  From [{k: old}] and [{k: new}] the patch is the one [replace] on
    [/metadata/annotations/k] with value [new].  From [{k: old}] and
    [{a: 1, k: new}] the patch depends on the order in which [range] visits
    the desired map: visited [k] then [a], the key [k] is replaced; visited
    [a] then [k], the [add] emitted for [a] reassigns [target] to the empty
    map (line 122), the test of line 121 then finds [k] empty, and [k] gets
    the [add] on the whole container, so no [replace] is emitted for it.
    The path of a [replace] is the prefix followed by the key as it is: for
    the key [kubed.appscode.com/sync] it is
    [/metadata/annotations/kubed.appscode.com/sync]. *)
Theorem updateAnnotation_reset_loses_replace :
  visits {[ "a" := "1"; "k" := "new" ]} [("k", "new"); ("a", "1")]
  /\ visits {[ "a" := "1"; "k" := "new" ]} [("a", "1"); ("k", "new")]
  /\ ({[ "a" := "1"; "k" := "new" ]} : gmap string string) !! "k" = Some "new"
  /\ index (Some {[ "k" := "old" ]}) "k" = "old"
  /\ updateAnnotation (Some {[ "k" := "old" ]}) [("k", "new")]
     = [ {| Op := "replace"; Path := "/metadata/annotations/k";
            Value := StringValue "new" |} ]
  /\ updateAnnotation (Some {[ "k" := "old" ]}) [("k", "new"); ("a", "1")]
     = [ {| Op := "replace"; Path := "/metadata/annotations/k";
            Value := StringValue "new" |};
         {| Op := "add"; Path := "/metadata/annotations";
            Value := MapValue {[ "a" := "1" ]} |} ]
  /\ updateAnnotation (Some {[ "k" := "old" ]}) [("a", "1"); ("k", "new")]
     = [ {| Op := "add"; Path := "/metadata/annotations";
            Value := MapValue {[ "a" := "1" ]} |};
         {| Op := "add"; Path := "/metadata/annotations";
            Value := MapValue {[ "k" := "new" ]} |} ]
  /\ ~ In {| Op := "replace"; Path := "/metadata/annotations/k";
             Value := StringValue "new" |}
          (updateAnnotation (Some {[ "k" := "old" ]}) [("a", "1"); ("k", "new")])
  /\ updateAnnotation (Some {[ syncAnnotationKey := "false" ]})
       [(syncAnnotationKey, "true")]
     = [ {| Op := "replace";
            Path := "/metadata/annotations/kubed.appscode.com/sync";
            Value := StringValue "true" |} ].
Proof.
  assert (Hlate : updateAnnotation (Some {[ "k" := "old" ]}) [("a", "1"); ("k", "new")]
     = [ {| Op := "add"; Path := "/metadata/annotations";
            Value := MapValue {[ "a" := "1" ]} |};
         {| Op := "add"; Path := "/metadata/annotations";
            Value := MapValue {[ "k" := "new" ]} |} ]).
  { vm_compute. reflexivity. }
  split; [|split; [|split; [|split; [|split; [|split; [|split; [|split]]]]]]].
  - unfold visits. vm_compute. first [reflexivity | apply perm_swap].
  - unfold visits. vm_compute. first [reflexivity | apply perm_swap].
  - vm_compute. reflexivity.
  - vm_compute. reflexivity.
  - vm_compute. reflexivity.
  - vm_compute. reflexivity.
  - exact Hlate.
  - rewrite Hlate. simpl. intros [H|[H|[]]]; discriminate.
  - vm_compute. reflexivity.
Qed.

(** ** The mutation step *)

Section Mutate.
Context `{rt : Runtime}.

(** The one operation the handler asks for. *)
Lemma sync_patch :
  updateAnnotation None [(syncAnnotationKey, "true")]
  = [ {| Op := "add"; Path := "/metadata/annotations";
         Value := MapValue {[ syncAnnotationKey := "true" ]} |} ].
Proof. reflexivity. Qed.

(** With nil existing annotations the loop never takes the [replace]
    branch. *)
Lemma loop_nil_adds l patch :
  Forall (fun op => Op op = "add") patch ->
  Forall (fun op => Op op = "add")
    (snd (fold_left updateAnnotation_step l (Some ∅, patch)))
  /\ Forall (fun op => Op op = "add")
    (snd (fold_left updateAnnotation_step l (None, patch))).
Proof.
  revert patch. induction l as [|[key value] l IH]; intros patch Hpatch.
  - split; exact Hpatch.
  - cbn [fold_left].
    rewrite (step_add None patch key value eq_refl).
    rewrite (step_add (Some ∅) patch key value (index_empty key)).
    assert (Hnext : Forall (fun op => Op op = "add")
                      (patch ++ [add_annotations key value])).
    { apply Forall_app. split; [exact Hpatch|]. by constructor. }
    split; apply (IH _ Hnext).
Qed.

(** The outcomes of [mutate], by cases on what the codecs return. *)
Lemma mutate_cases ar resp :
  mutate ar = Return resp ->
  exists req, Review.Request ar = Some req
  /\ ((exists err, json_Unmarshal_Secret (runtime.Raw (Req.Object req)) = inr err
         /\ resp = failed err)
      \/ (exists secret,
            json_Unmarshal_Secret (runtime.Raw (Req.Object req)) = inl secret
            /\ mutationRequired ignoredNamespaces (corev1.ObjectMeta secret) = false
            /\ resp = {| Resp.UID := nostr; Resp.Allowed := true;
                         Resp.Result := None; Resp.Patch := None;
                         Resp.PatchType := None |})
      \/ (exists secret err,
            json_Unmarshal_Secret (runtime.Raw (Req.Object req)) = inl secret
            /\ mutationRequired ignoredNamespaces (corev1.ObjectMeta secret) = true
            /\ resp = failed err)
      \/ (exists secret patchBytes,
            json_Unmarshal_Secret (runtime.Raw (Req.Object req)) = inl secret
            /\ mutationRequired ignoredNamespaces (corev1.ObjectMeta secret) = true
            /\ json_Marshal_patch
                 [ {| Op := "add"; Path := "/metadata/annotations";
                      Value := MapValue {[ syncAnnotationKey := "true" ]} |} ]
               = inl patchBytes
            /\ resp = {| Resp.UID := nostr; Resp.Allowed := true;
                         Resp.Result := None; Resp.Patch := Some patchBytes;
                         Resp.PatchType := Some v1beta1.PatchTypeJSONPatch |})).
Proof.
  unfold mutate. destruct (Review.Request ar) as [req|]; [|discriminate].
  intros Hrun. exists req. split; [reflexivity|].
  destruct (json_Unmarshal_Secret _) as [secret|err].
  - destruct (mutationRequired ignoredNamespaces _) eqn:Hpolicy; simpl in Hrun.
    + unfold createPatch in Hrun. rewrite sync_patch in Hrun. simpl in Hrun.
      destruct (json_Marshal_patch _) as [patchBytes|err] eqn:Henc.
      * injection Hrun as <-. right. right. right. by exists secret, patchBytes.
      * injection Hrun as <-. right. right. left. by exists secret, err.
    + injection Hrun as <-. right. left. by exists secret.
  - injection Hrun as <-. left. by exists err.
Qed.
End Mutate.

(** C4. For a review whose Secret decodes and for which the policy requires
    mutation, [mutate] answers with [Allowed] true, the patch-type tag
    [JSONPatch] and, as patch, the encoding that [json.Marshal] returns for
    the one-operation sequence
    [[{op: add, path: /metadata/annotations, value: {kubed.appscode.com/sync: true}}]],
    whatever annotations the Secret already has.  The builder is given nil
    existing annotations, and from nil it never emits a [replace]. *)
Theorem mutate_adds_sync `{rt : Runtime}
    (ar : Review.t) (req : Req.t) (secret : corev1.Secret) (patchBytes : bytes) :
  Review.Request ar = Some req ->
  json_Unmarshal_Secret (runtime.Raw (Req.Object req)) = inl secret ->
  mutationRequired ignoredNamespaces (corev1.ObjectMeta secret) = true ->
  json_Marshal_patch
    [ {| Op := "add"; Path := "/metadata/annotations";
         Value := MapValue {[ syncAnnotationKey := "true" ]} |} ]
  = inl patchBytes ->
  mutate ar
  = Return {| Resp.UID := nostr; Resp.Allowed := true; Resp.Result := None;
              Resp.Patch := Some patchBytes;
              Resp.PatchType := Some v1beta1.PatchTypeJSONPatch |}
  /\ createPatch None [(syncAnnotationKey, "true")] = inl patchBytes
  /\ forall added, Forall (fun op => Op op = "add") (updateAnnotation None added).
Proof.
  intros Hreq Hsecret Hpolicy Henc.
  assert (Hcreate : createPatch None [(syncAnnotationKey, "true")] = inl patchBytes).
  { unfold createPatch. rewrite sync_patch. exact Henc. }
  split; [|split].
  - unfold mutate. rewrite Hreq, Hsecret, Hpolicy. simpl. by rewrite Hcreate.
  - exact Hcreate.
  - intros added. apply (loop_nil_adds added []). constructor.
Qed.

Lemma mutate_adds_sync_witness :
  @mutate Sample.rt (Sample.review "11d0c1e2" "secret/issued")
  = Return {| Resp.UID := nostr; Resp.Allowed := true; Resp.Result := None;
              Resp.Patch :=
                Some ("[{" +:+ Sample.quoted "op" +:+ ":" +:+ Sample.quoted "add" +:+ ","
                      +:+ Sample.quoted "path" +:+ ":"
                      +:+ Sample.quoted "/metadata/annotations" +:+ ","
                      +:+ Sample.quoted "value" +:+ ":{"
                      +:+ Sample.quoted "kubed.appscode.com/sync" +:+ ":"
                      +:+ Sample.quoted "true" +:+ "}}]");
              Resp.PatchType := Some v1beta1.PatchTypeJSONPatch |}
  /\ @createPatch Sample.rt None [(syncAnnotationKey, "true")]
     = inl ("[{" +:+ Sample.quoted "op" +:+ ":" +:+ Sample.quoted "add" +:+ ","
            +:+ Sample.quoted "path" +:+ ":"
            +:+ Sample.quoted "/metadata/annotations" +:+ ","
            +:+ Sample.quoted "value" +:+ ":{"
            +:+ Sample.quoted "kubed.appscode.com/sync" +:+ ":"
            +:+ Sample.quoted "true" +:+ "}}]")
  /\ forall added, Forall (fun op => Op op = "add") (updateAnnotation None added).
Proof.
  apply (@mutate_adds_sync Sample.rt (Sample.review "11d0c1e2" "secret/issued")
           (Sample.request "11d0c1e2" "secret/issued")
           (Sample.secret "default" (Some Sample.issued))).
  - reflexivity.
  - reflexivity.
  - vm_compute. reflexivity.
  - vm_compute. reflexivity.
Defined.

(** ** The handler *)

Section Serve.
Context `{rt : Runtime}.

Lemma Error_status msg code :
  http.status (http.Error http.fresh msg code) = Some code.
Proof.
  unfold http.Error, http.Write. simpl.
  by destruct (conn_Write (msg +:+ newline)).
Qed.

(** A first [Write] on a fresh writer answers 200, and the body is what
    was written when the connection takes it. *)
Lemma Write_fresh (b : bytes) :
  http.status (fst (http.Write http.fresh b)) = Some http.StatusOK
  /\ (conn_Write b = None ->
      http.Write http.fresh b
      = ({| http.status := Some http.StatusOK; http.sent := [b] |}, None)).
Proof.
  unfold http.Write. simpl. destruct (conn_Write b); split; try done.
Qed.

(** Once the status line is out, nothing changes it. *)
Lemma WriteHeader_sent w code c :
  http.status w = Some c -> http.WriteHeader w code = w.
Proof. unfold http.WriteHeader. by intros ->. Qed.

Lemma Error_sent w msg code c :
  http.status w = Some c -> http.status (http.Error w msg code) = Some c.
Proof.
  intros Hw. unfold http.Error, http.Write.
  rewrite !(WriteHeader_sent _ _ _ Hw).
  by destruct (conn_Write _).
Qed.

Lemma serve_empty_body w r :
  read_body r = nostr ->
  serve w r
  = Return {| writer := http.Error w "empty body" http.StatusBadRequest;
              envelope := None |}.
Proof. unfold serve. intros ->. reflexivity. Qed.

Lemma length_nonempty (s : string) : s <> nostr -> Nat.eqb (String.length s) 0 = false.
Proof. destruct s; [done | reflexivity]. Qed.

Lemma serve_wrong_type w r :
  read_body r <> nostr ->
  http.Header_Get (http.Header r) "Content-Type" <> "application/json" ->
  serve w r
  = Return {| writer := http.Error w "invalid Content-Type, expect `application/json`"
                          http.StatusUnsupportedMediaType;
              envelope := None |}.
Proof.
  intros Hbody Htype. unfold serve.
  rewrite (length_nonempty _ Hbody).
  apply String.eqb_neq in Htype. rewrite Htype. reflexivity.
Qed.

(** Where the envelope of a finished run comes from. *)
Lemma serve_envelope w r out rv :
  serve w r = Return out ->
  envelope out = Some rv ->
  read_body r <> nostr
  /\ http.Header_Get (http.Header r) "Content-Type" = "application/json"
  /\ exists ar status,
       deserializer_Decode (read_body r) = (ar, status)
       /\ ((exists err, status = Some err
              /\ rv = {| Review.Request := None;
                         Review.Response :=
                           Some match Review.Request ar with
                                | Some req => Resp.setUID (failed err) (Req.UID req)
                                | None => failed err
                                end |})
           \/ (exists resp, status = None
                 /\ http.URL_Path r = "/mutate"
                 /\ mutate ar = Return resp
                 /\ rv = {| Review.Request := None;
                            Review.Response :=
                              Some match Review.Request ar with
                                   | Some req => Resp.setUID resp (Req.UID req)
                                   | None => resp
                                   end |})
           \/ (status = None /\ http.URL_Path r <> "/mutate" /\ rv = Review.zero)).
Proof.
  unfold serve. intros Hrun Henv.
  destruct (Nat.eqb (String.length (read_body r)) 0) eqn:Hlen.
  { injection Hrun as <-. discriminate. }
  assert (Hbody : read_body r <> nostr).
  { intros Heq. rewrite Heq in Hlen. discriminate. }
  destruct (String.eqb_spec (http.Header_Get (http.Header r) "Content-Type")
              "application/json") as [Htype|Htype]; simpl in Hrun.
  2:{ injection Hrun as <-. discriminate. }
  split; [exact Hbody|]. split; [exact Htype|].
  destruct (deserializer_Decode (read_body r)) as [ar status].
  exists ar, status. split; [reflexivity|].
  destruct status as [err|].
  - left. exists err. split; [reflexivity|]. simpl in Hrun.
    destruct (json_Marshal_review _); destruct (http.Write _ _) as [w' [?|]];
      injection Hrun as <-; simpl in Henv; congruence.
  - destruct (String.eqb_spec (http.URL_Path r) "/mutate") as [Hpath|Hpath].
    + right. left. destruct (mutate ar) as [resp|reason]; [|discriminate].
      exists resp. repeat (split; [done|]). simpl in Hrun.
      destruct (json_Marshal_review _); destruct (http.Write _ _) as [w' [?|]];
        injection Hrun as <-; simpl in Henv; congruence.
    + right. right. repeat (split; [done|]). simpl in Hrun.
      destruct (json_Marshal_review _); destruct (http.Write _ _) as [w' [?|]];
        injection Hrun as <-; simpl in Henv; congruence.
Qed.

(** Past the two transport checks the run returns as soon as the decision
    step does.  It builds the envelope from the response, stamped with the
    request's UID when there is a request; once the envelope is encoded
    the answer is 200, and the body is the encoding when the connection
    takes it. *)
Lemma serve_replies r ar status admissionResponse :
  read_body r <> nostr ->
  http.Header_Get (http.Header r) "Content-Type" = "application/json" ->
  deserializer_Decode (read_body r) = (ar, status) ->
  match status with
  | Some err => Return (Some (failed err))
  | None =>
      if String.eqb (http.URL_Path r) "/mutate" then
        resp <- mutate ar ;; Return (Some resp)
      else Return None
  end = Return admissionResponse ->
  exists out,
    serve http.fresh r = Return out
    /\ envelope out
       = Some match admissionResponse with
              | Some resp =>
                  {| Review.Request := None;
                     Review.Response :=
                       Some match Review.Request ar with
                            | Some req => Resp.setUID resp (Req.UID req)
                            | None => resp
                            end |}
              | None => Review.zero
              end
    /\ forall rv encoded,
         envelope out = Some rv ->
         json_Marshal_review rv = inl encoded ->
         http.status (writer out) = Some http.StatusOK
         /\ (conn_Write encoded = None -> http.sent (writer out) = [encoded]).
Proof.
  intros Hbody Htype Hdecode Hstep. unfold serve.
  rewrite (length_nonempty _ Hbody), Htype, Hdecode. simpl.
  rewrite Hstep. simpl.
  destruct (json_Marshal_review _) as [encoded|err] eqn:Henc.
  - destruct (Write_fresh encoded) as [Hstatus Hsent].
    destruct (http.Write http.fresh encoded) as [w werr] eqn:Hwrite.
    eexists. split; [reflexivity|]. split; [reflexivity|].
    simpl. intros rv encoded' [= <-] Henc'.
    rewrite Henc in Henc'. injection Henc' as <-.
    split.
    + destruct werr as [err|]; [|exact Hstatus].
      exact (Error_sent _ _ _ _ Hstatus).
    + intros Hconn. specialize (Hsent Hconn). injection Hsent as -> ->.
      reflexivity.
  - destruct (http.Write _ nostr) as [w werr].
    eexists. split; [reflexivity|]. split; [reflexivity|].
    simpl. intros rv encoded [= <-] Henc'. congruence.
Qed.
End Serve.

(** C6. When the review envelope of a request decodes and the handler
    produces a response, the review carried a request and the response
    bears that request's UID.  The body sent is the encoding of the reply
    envelope, so a client whose decoder reads the encoding back gets the
    request's UID. *)
Theorem serve_echoes_UID `{rt : Runtime}
    (r : http.Request) (ar : Review.t) (out : served) (rv : Review.t) (resp : Resp.t) :
  deserializer_Decode (read_body r) = (ar, None) ->
  serve http.fresh r = Return out ->
  envelope out = Some rv ->
  Review.Response rv = Some resp ->
  exists req,
    Review.Request ar = Some req
    /\ Resp.UID resp = Req.UID req
    /\ forall (encoded : bytes) (decode : bytes -> option Review.t),
         json_Marshal_review rv = inl encoded ->
         conn_Write encoded = None ->
         decode encoded = Some rv ->
         http.sent (writer out) = [encoded]
         /\ Resp.UID <$> (decode encoded ≫= Review.Response) = Some (Req.UID req).
Proof.
  intros Hdecode Hrun Henv Hresp.
  destruct (serve_envelope _ _ _ _ Hrun Henv)
    as (Hbody & Htype & ar' & status & Hdecode' & Hcases).
  rewrite Hdecode in Hdecode'. injection Hdecode' as <- <-.
  destruct Hcases as [(err & Hstatus & _) | [(resp0 & _ & Hpath & Hmutate & Hrv)
                                            | (_ & _ & Hrv)]].
  - discriminate.
  - destruct (mutate_cases ar resp0 Hmutate) as (req & Hreq & _).
    exists req. split; [exact Hreq|].
    rewrite Hreq in Hrv. subst rv. simpl in Hresp. injection Hresp as <-.
    split; [reflexivity|].
    intros encoded decode Henc Hconn Hback.
    assert (Hstep : (if String.eqb (http.URL_Path r) "/mutate"
                     then resp <- mutate ar ;; Return (Some resp)
                     else Return None) = Return (Some resp0)).
    { rewrite Hpath, Hmutate. reflexivity. }
    destruct (serve_replies r ar None (Some resp0) Hbody Htype Hdecode Hstep)
      as (out' & Hrun' & Henv' & Hwire).
    rewrite Hrun in Hrun'. injection Hrun' as <-.
    destruct (Hwire _ encoded Henv Henc) as [_ Hsent].
    split; [exact (Hsent Hconn)|].
    rewrite Hback. reflexivity.
  - subst rv. discriminate.
Qed.

Lemma serve_echoes_UID_witness :
  exists req,
    Review.Request (Sample.review "705ab4f5" "secret/plain") = Some req
    /\ Resp.UID (Sample.patched "705ab4f5") = Req.UID req
    /\ http.sent (writer (Sample.delivered (Sample.reply (Sample.patched "705ab4f5"))))
       = [Sample.print_review (Sample.reply (Sample.patched "705ab4f5"))]
    /\ Resp.UID <$> (Sample.read_back
                       (Sample.print_review (Sample.reply (Sample.patched "705ab4f5")))
                     ≫= Review.Response)
       = Some (Req.UID req).
Proof.
  destruct (@serve_echoes_UID Sample.rt (Sample.post "/mutate" "review/plain")
              (Sample.review "705ab4f5" "secret/plain")
              (Sample.delivered (Sample.reply (Sample.patched "705ab4f5")))
              (Sample.reply (Sample.patched "705ab4f5"))
              (Sample.patched "705ab4f5"))
    as (req & Hreq & Huid & Hwire).
  - reflexivity.
  - vm_compute. reflexivity.
  - reflexivity.
  - reflexivity.
  - exists req. split; [exact Hreq|]. split; [exact Huid|].
    apply (Hwire (Sample.print_review (Sample.reply (Sample.patched "705ab4f5")))
             Sample.read_back).
    + reflexivity.
    + reflexivity.
    + vm_compute. reflexivity.
Defined.

(** C7, as the source has it.  Take a request with a non-empty body and the
    content type [application/json].  If its review envelope fails to
    decode, or if the request goes to [/mutate], its envelope decodes and
    its embedded Secret fails to decode, the handler builds a reply envelope
    whose response holds the decoder's error message as status message, has
    [Allowed] false and no patch; once the envelope is encoded the HTTP
    status is 200 and the body is the encoding when the connection takes
    it.  (On another path the embedded Secret is never decoded.) *)
Theorem serve_decode_failure `{rt : Runtime}
    (r : http.Request) (ar : Review.t) (err : error) :
  read_body r <> nostr ->
  http.Header_Get (http.Header r) "Content-Type" = "application/json" ->
  deserializer_Decode (read_body r) = (ar, Some err)
  \/ (deserializer_Decode (read_body r) = (ar, None)
      /\ http.URL_Path r = "/mutate"
      /\ exists req, Review.Request ar = Some req
           /\ json_Unmarshal_Secret (runtime.Raw (Req.Object req)) = inr err) ->
  exists out rv resp,
    serve http.fresh r = Return out
    /\ envelope out = Some rv
    /\ Review.Response rv = Some resp
    /\ Resp.Result resp = Some {| metav1.Message := err |}
    /\ Resp.Allowed resp = false
    /\ Resp.Patch resp = None
    /\ forall encoded,
         json_Marshal_review rv = inl encoded ->
         http.status (writer out) = Some http.StatusOK
         /\ (conn_Write encoded = None -> http.sent (writer out) = [encoded]).
Proof.
  intros Hbody Htype [Hdecode | (Hdecode & Hpath & req & Hreq & Hsecret)].
  - destruct (serve_replies r ar (Some err) (Some (failed err))
                Hbody Htype Hdecode eq_refl) as (out & Hrun & Henv & Hwire).
    eexists out, _, _. split; [exact Hrun|]. split; [exact Henv|].
    split; [reflexivity|].
    split; [by destruct (Review.Request ar)|].
    split; [by destruct (Review.Request ar)|].
    split; [by destruct (Review.Request ar)|].
    intros encoded Henc. exact (Hwire _ encoded Henv Henc).
  - assert (Hstep : (if String.eqb (http.URL_Path r) "/mutate"
                     then resp <- mutate ar ;; Return (Some resp)
                     else Return None) = Return (Some (failed err))).
    { rewrite Hpath. unfold mutate. rewrite Hreq, Hsecret. reflexivity. }
    destruct (serve_replies r ar None (Some (failed err))
                Hbody Htype Hdecode Hstep) as (out & Hrun & Henv & Hwire).
    rewrite Hreq in Henv.
    eexists out, _, _. split; [exact Hrun|]. split; [exact Henv|].
    repeat (split; [reflexivity|]).
    intros encoded Henc. exact (Hwire _ encoded Henv Henc).
Qed.

Lemma serve_decode_failure_witness :
  (exists out rv resp,
     @serve Sample.rt http.fresh (Sample.post "/mutate" "not json") = Return out
     /\ envelope out = Some rv
     /\ Review.Response rv = Some resp
     /\ Resp.Result resp
        = Some {| metav1.Message := "couldn't get version/kind; json parse error" |}
     /\ Resp.Allowed resp = false
     /\ Resp.Patch resp = None
     /\ http.status (writer out) = Some http.StatusOK
     /\ http.sent (writer out) = [Sample.print_review rv])
  /\ (exists out rv resp,
     @serve Sample.rt http.fresh (Sample.post "/mutate" "review/not-a-secret") = Return out
     /\ envelope out = Some rv
     /\ Review.Response rv = Some resp
     /\ Resp.Result resp
        = Some {| metav1.Message :=
                    "json: cannot unmarshal array into Go value of type v1.Secret" |}
     /\ Resp.Allowed resp = false
     /\ Resp.Patch resp = None
     /\ http.status (writer out) = Some http.StatusOK
     /\ http.sent (writer out) = [Sample.print_review rv]).
Proof.
  split.
  - destruct (@serve_decode_failure Sample.rt (Sample.post "/mutate" "not json")
                Review.zero "couldn't get version/kind; json parse error")
      as (out & rv & resp & Hrun & Henv & Hresp & Hmsg & Hallowed & Hpatch & Hwire).
    + discriminate.
    + reflexivity.
    + left. reflexivity.
    + destruct (Hwire (Sample.print_review rv) eq_refl) as [Hstatus Hsent].
      exists out, rv, resp. repeat (split; [assumption|]). exact (Hsent eq_refl).
  - destruct (@serve_decode_failure Sample.rt (Sample.post "/mutate" "review/not-a-secret")
                (Sample.review "5eed5eed" "[]")
                "json: cannot unmarshal array into Go value of type v1.Secret")
      as (out & rv & resp & Hrun & Henv & Hresp & Hmsg & Hallowed & Hpatch & Hwire).
    + discriminate.
    + reflexivity.
    + right. split; [reflexivity|]. split; [reflexivity|].
      exists (Sample.request "5eed5eed" "[]"). split; reflexivity.
    + destruct (Hwire (Sample.print_review rv) eq_refl) as [Hstatus Hsent].
      exists out, rv, resp. repeat (split; [assumption|]). exact (Hsent eq_refl).
Defined.

(** C7 as stated fails for a malformed embedded Secret on a path other than
    [/mutate]: the envelope decodes, the Secret in it does not, and the
    reply envelope is the empty one, with no response and so no status
    message. *)
Lemma serve_decode_failure_counterexample :
  read_body (Sample.post "/other" "review/not-a-secret") = "review/not-a-secret"
  /\ http.Header_Get (http.Header (Sample.post "/other" "review/not-a-secret"))
       "Content-Type" = "application/json"
  /\ @deserializer_Decode Sample.rt "review/not-a-secret"
     = (Sample.review "5eed5eed" "[]", None)
  /\ @json_Unmarshal_Secret Sample.rt
       (runtime.Raw (Req.Object (Sample.request "5eed5eed" "[]")))
     = inr "json: cannot unmarshal array into Go value of type v1.Secret"
  /\ @serve Sample.rt http.fresh (Sample.post "/other" "review/not-a-secret")
     = Return {| writer := {| http.status := Some 200; http.sent := ["{}"] |};
                 envelope := Some {| Review.Request := None;
                                     Review.Response := None |} |}.
Proof. repeat split; vm_compute; reflexivity. Qed.

(** C8. A request whose body is empty (nil, unreadable or of length zero) is
    answered with status 400 and no reply envelope is built; a request with
    a non-empty body whose [Content-Type] is not [application/json] is
    answered with status 415 and no reply envelope is built.  In both cases
    the only thing the handler writes is the error text. *)
Theorem serve_transport_errors `{rt : Runtime} (r : http.Request) :
  (read_body r = nostr ->
   exists out,
     serve http.fresh r = Return out
     /\ http.status (writer out) = Some 400
     /\ envelope out = None
     /\ (http.sent (writer out) = []
         \/ http.sent (writer out) = ["empty body" +:+ newline]))
  /\ (read_body r <> nostr ->
      http.Header_Get (http.Header r) "Content-Type" <> "application/json" ->
      exists out,
        serve http.fresh r = Return out
        /\ http.status (writer out) = Some 415
        /\ envelope out = None
        /\ (http.sent (writer out) = []
            \/ http.sent (writer out)
               = ["invalid Content-Type, expect `application/json`" +:+ newline])).
Proof.
  split.
  - intros Hbody. eexists. split; [exact (serve_empty_body _ r Hbody)|].
    split; [apply Error_status|]. split; [reflexivity|].
    simpl. unfold http.Error, http.Write.
    destruct (conn_Write _); [left | right]; reflexivity.
  - intros Hbody Htype. eexists. split; [exact (serve_wrong_type _ r Hbody Htype)|].
    split; [apply Error_status|]. split; [reflexivity|].
    simpl. unfold http.Error, http.Write.
    destruct (conn_Write _); [left | right]; reflexivity.
Qed.

Lemma serve_transport_errors_witness :
  (exists out,
     @serve Sample.rt http.fresh
       {| http.Body := Some (nostr, None);
          http.Header := {[ "Content-Type" := ["application/json"] ]};
          http.URL_Path := "/mutate" |} = Return out
     /\ http.status (writer out) = Some 400
     /\ envelope out = None
     /\ (http.sent (writer out) = []
         \/ http.sent (writer out) = ["empty body" +:+ newline]))
  /\ (exists out,
        @serve Sample.rt http.fresh
          {| http.Body := Some ("review/plain", None);
             http.Header := {[ "Content-Type" := ["text/plain"] ]};
             http.URL_Path := "/mutate" |} = Return out
        /\ http.status (writer out) = Some 415
        /\ envelope out = None
        /\ (http.sent (writer out) = []
            \/ http.sent (writer out)
               = ["invalid Content-Type, expect `application/json`" +:+ newline])).
Proof.
  split.
  - apply (proj1 (@serve_transport_errors Sample.rt
                    {| http.Body := Some (nostr, None);
                       http.Header := {[ "Content-Type" := ["application/json"] ]};
                       http.URL_Path := "/mutate" |})).
    reflexivity.
  - apply (proj2 (@serve_transport_errors Sample.rt
                    {| http.Body := Some ("review/plain", None);
                       http.Header := {[ "Content-Type" := ["text/plain"] ]};
                       http.URL_Path := "/mutate" |})).
    + discriminate.
    + vm_compute. discriminate.
Defined.

(** C9. A response that carries a patch has [Allowed] true and the patch-type
    tag [JSONPatch], and it was produced for a Secret for which the policy
    required mutation.  This holds for the responses [mutate] returns and
    for the responses in the reply envelopes of [serve], which include the
    ones built on a decode error. *)
Theorem patch_only_when_allowed `{rt : Runtime} :
  (forall (ar : Review.t) (resp : Resp.t) (p : bytes),
      mutate ar = Return resp ->
      Resp.Patch resp = Some p ->
      Resp.Allowed resp = true
      /\ Resp.PatchType resp = Some v1beta1.PatchTypeJSONPatch
      /\ exists req secret,
           Review.Request ar = Some req
           /\ json_Unmarshal_Secret (runtime.Raw (Req.Object req)) = inl secret
           /\ mutationRequired ignoredNamespaces (corev1.ObjectMeta secret) = true)
  /\ (forall (w : http.ResponseWriter) (r : http.Request) (out : served)
             (rv : Review.t) (resp : Resp.t) (p : bytes),
      serve w r = Return out ->
      envelope out = Some rv ->
      Review.Response rv = Some resp ->
      Resp.Patch resp = Some p ->
      Resp.Allowed resp = true
      /\ Resp.PatchType resp = Some v1beta1.PatchTypeJSONPatch
      /\ exists ar req secret,
           deserializer_Decode (read_body r) = (ar, None)
           /\ Review.Request ar = Some req
           /\ json_Unmarshal_Secret (runtime.Raw (Req.Object req)) = inl secret
           /\ mutationRequired ignoredNamespaces (corev1.ObjectMeta secret) = true).
Proof.
  assert (Hmutate : forall ar resp p,
             mutate ar = Return resp -> Resp.Patch resp = Some p ->
             Resp.Allowed resp = true
             /\ Resp.PatchType resp = Some v1beta1.PatchTypeJSONPatch
             /\ exists req secret,
                  Review.Request ar = Some req
                  /\ json_Unmarshal_Secret (runtime.Raw (Req.Object req)) = inl secret
                  /\ mutationRequired ignoredNamespaces (corev1.ObjectMeta secret) = true).
  { intros ar resp p Hrun Hp.
    destruct (mutate_cases ar resp Hrun) as (req & Hreq & Hcases).
    destruct Hcases as [(err & _ & ->) | [(secret & _ & _ & ->)
                       | [(secret & err & _ & _ & ->)
                       | (secret & patchBytes & Hsecret & Hpolicy & _ & ->)]]];
      try discriminate.
    split; [reflexivity|]. split; [reflexivity|]. by exists req, secret. }
  split; [exact Hmutate|].
  intros w r out rv resp p Hrun Henv Hresp Hp.
  destruct (serve_envelope _ _ _ _ Hrun Henv)
    as (_ & _ & ar & status & Hdecode & Hcases).
  destruct Hcases as [(err & _ & ->) | [(resp0 & -> & _ & Hmut & ->)
                                       | (_ & _ & ->)]].
  - simpl in Hresp. injection Hresp as <-.
    destruct (Review.Request ar); discriminate.
  - simpl in Hresp. injection Hresp as <-.
    assert (Hp0 : Resp.Patch resp0 = Some p).
    { destruct (Review.Request ar); exact Hp. }
    destruct (Hmutate ar resp0 p Hmut Hp0) as (Hallowed & Htag & req & secret & Hreq & Hrest).
    split; [by destruct (Review.Request ar)|].
    split; [by destruct (Review.Request ar)|].
    by exists ar, req, secret.
  - discriminate.
Qed.

Lemma patch_only_when_allowed_witness :
  (Resp.Allowed (Sample.patched nostr) = true
   /\ Resp.PatchType (Sample.patched nostr) = Some v1beta1.PatchTypeJSONPatch
   /\ exists req secret,
        Review.Request (Sample.review "705ab4f5" "secret/plain") = Some req
        /\ @json_Unmarshal_Secret Sample.rt (runtime.Raw (Req.Object req)) = inl secret
        /\ mutationRequired ignoredNamespaces (corev1.ObjectMeta secret) = true)
  /\ (Resp.Allowed (Sample.patched "705ab4f5") = true
      /\ Resp.PatchType (Sample.patched "705ab4f5") = Some v1beta1.PatchTypeJSONPatch
      /\ exists ar req secret,
           @deserializer_Decode Sample.rt
             (read_body (Sample.post "/mutate" "review/plain")) = (ar, None)
           /\ Review.Request ar = Some req
           /\ @json_Unmarshal_Secret Sample.rt (runtime.Raw (Req.Object req)) = inl secret
           /\ mutationRequired ignoredNamespaces (corev1.ObjectMeta secret) = true).
Proof.
  split.
  - apply (proj1 (@patch_only_when_allowed Sample.rt)
             (Sample.review "705ab4f5" "secret/plain") (Sample.patched nostr)
             (Sample.print_patch [add_annotations syncAnnotationKey "true"])).
    + vm_compute. reflexivity.
    + reflexivity.
  - apply (proj2 (@patch_only_when_allowed Sample.rt)
             http.fresh (Sample.post "/mutate" "review/plain")
             (Sample.delivered (Sample.reply (Sample.patched "705ab4f5")))
             (Sample.reply (Sample.patched "705ab4f5")) (Sample.patched "705ab4f5")
             (Sample.print_patch [add_annotations syncAnnotationKey "true"])).
    + vm_compute. reflexivity.
    + reflexivity.
    + reflexivity.
    + reflexivity.
Defined.

(** C10. When the body of a request decodes and its path is not [/mutate],
    the handler takes no admission decision: it returns, and the reply
    envelope is the empty one, with no response in it, hence no allowed
    flag, patch, status message or UID.  For a request that passes the two
    transport checks the empty envelope is built and, once encoded, sent
    with status 200. *)
Theorem serve_other_path `{rt : Runtime} (r : http.Request) (ar : Review.t) :
  deserializer_Decode (read_body r) = (ar, None) ->
  http.URL_Path r <> "/mutate" ->
  exists out,
    serve http.fresh r = Return out
    /\ (forall rv, envelope out = Some rv ->
          rv = {| Review.Request := None; Review.Response := None |})
    /\ (read_body r <> nostr ->
        http.Header_Get (http.Header r) "Content-Type" = "application/json" ->
        envelope out = Some {| Review.Request := None; Review.Response := None |}
        /\ forall encoded,
             json_Marshal_review {| Review.Request := None; Review.Response := None |}
             = inl encoded ->
             http.status (writer out) = Some http.StatusOK
             /\ (conn_Write encoded = None -> http.sent (writer out) = [encoded])).
Proof.
  intros Hdecode Hpath.
  destruct (decide (read_body r = nostr)) as [Hbody|Hbody].
  { eexists. split; [exact (serve_empty_body _ r Hbody)|].
    split; [discriminate | contradiction]. }
  destruct (decide (http.Header_Get (http.Header r) "Content-Type" = "application/json"))
    as [Htype|Htype].
  2:{ eexists. split; [exact (serve_wrong_type _ r Hbody Htype)|].
      split; [discriminate | contradiction]. }
  assert (Hstep : (if String.eqb (http.URL_Path r) "/mutate"
                   then resp <- mutate ar ;; Return (Some resp)
                   else Return None) = Return None).
  { apply String.eqb_neq in Hpath. rewrite Hpath. reflexivity. }
  destruct (serve_replies r ar None None Hbody Htype Hdecode Hstep)
    as (out & Hrun & Henv & Hwire).
  exists out. split; [exact Hrun|]. split.
  - intros rv Hrv. rewrite Henv in Hrv. injection Hrv as <-. reflexivity.
  - intros _ _. split; [exact Henv|].
    intros encoded Henc. exact (Hwire _ encoded Henv Henc).
Qed.

Lemma serve_other_path_witness :
  exists out,
    @serve Sample.rt http.fresh (Sample.post "/validate" "review/plain") = Return out
    /\ envelope out = Some {| Review.Request := None; Review.Response := None |}
    /\ http.status (writer out) = Some http.StatusOK
    /\ http.sent (writer out) = ["{}"].
Proof.
  destruct (@serve_other_path Sample.rt (Sample.post "/validate" "review/plain")
              (Sample.review "705ab4f5" "secret/plain"))
    as (out & Hrun & _ & Hbuilt).
  - reflexivity.
  - discriminate.
  - destruct Hbuilt as [Henv Hwire]; [discriminate | reflexivity |].
    destruct (Hwire "{}" eq_refl) as [Hstatus Hsent].
    exists out. repeat (split; [assumption|]). exact (Hsent eq_refl).
Defined.

(** * Further properties *)

(** ** Policy evaluator, for any exempt list *)

(** X1. [admissionRequired] answers [true] exactly when the namespace of the
    object is not in the list it is given. *)
Theorem admissionRequired_iff (ignoredList : list string) (metadata : metav1.ObjectMeta) :
  admissionRequired ignoredList metadata = true
  <-> ~ In (metav1.Namespace metadata) ignoredList.
Proof.
  split.
  - intros Hreq Hin. rewrite (admissionRequired_false _ _ Hin) in Hreq. discriminate.
  - apply admissionRequired_true.
Qed.

Lemma admissionRequired_iff_witness :
  admissionRequired ["kube-system"; "istio-system"]
    (corev1.ObjectMeta (Sample.secret "default" None)) = true.
Proof.
  apply (proj2 (admissionRequired_iff ["kube-system"; "istio-system"]
                  (corev1.ObjectMeta (Sample.secret "default" None)))).
  simpl. intros [H|[H|[]]]; discriminate.
Defined.

(** X2. Whatever the exempt list, the decision is Mutate ([true]) exactly
    when the namespace is not in the list and the object does not carry both
    the issuer marker and the origin marker.  The values of the markers play
    no part, nor do the name and the labels, and a nil annotation map
    behaves as an empty one. *)
Theorem mutationRequired_iff (ignoredList : list string) (metadata : metav1.ObjectMeta) :
  mutationRequired ignoredList metadata = true
  <-> ~ In (metav1.Namespace metadata) ignoredList
      /\ ~ (carries metadata certManagerAnnotationKey
            /\ carries metadata originAnnotationKey).
Proof.
  unfold mutationRequired.
  destruct (admissionRequired ignoredList metadata) eqn:Hadm.
  - assert (Hreq : ~ In (metav1.Namespace metadata) ignoredList).
    { intros Hin. rewrite (admissionRequired_false _ _ Hin) in Hadm. discriminate. }
    destruct (has _ certManagerAnnotationKey) eqn:Hcm.
    + apply has_carries in Hcm.
      destruct (has _ originAnnotationKey) eqn:Ho.
      * apply has_carries in Ho. split; [discriminate|].
        intros [_ Hboth]. exfalso. apply Hboth. by split.
      * apply has_not_carries in Ho. split; [|reflexivity].
        intros _. split; [exact Hreq|]. intros [_ Ho']. by apply Ho.
    + apply has_not_carries in Hcm. split; [|reflexivity].
      intros _. split; [exact Hreq|]. intros [Hcm' _]. by apply Hcm.
  - split; [discriminate|]. intros [Hns _].
    rewrite (admissionRequired_true _ _ Hns) in Hadm. discriminate.
Qed.

Lemma mutationRequired_iff_witness :
  mutationRequired ["istio-system"]
    (corev1.ObjectMeta (Sample.secret "kube-system" (Some Sample.issued))) = true.
Proof.
  apply (proj2 (mutationRequired_iff ["istio-system"]
                  (corev1.ObjectMeta (Sample.secret "kube-system" (Some Sample.issued))))).
  split.
  - simpl. intros [H|[]]. discriminate.
  - intros [_ [v Hv]]. vm_compute in Hv. discriminate.
Defined.

(** X3. Enlarging the exempt list never turns Skip into Mutate: an object
    that is mutated under a list is mutated under every list whose
    namespaces are all in it. *)
Theorem mutationRequired_antitone
    (smaller larger : list string) (metadata : metav1.ObjectMeta) :
  (forall ns, In ns smaller -> In ns larger) ->
  mutationRequired larger metadata = true ->
  mutationRequired smaller metadata = true.
Proof.
  intros Hincl Hlarger. unfold mutationRequired in *.
  destruct (admissionRequired larger metadata) eqn:Hadm; [|discriminate].
  assert (Hns : ~ In (metav1.Namespace metadata) smaller).
  { intros Hin. rewrite (admissionRequired_false _ _ (Hincl _ Hin)) in Hadm.
    discriminate. }
  rewrite (admissionRequired_true _ _ Hns). exact Hlarger.
Qed.

Lemma mutationRequired_antitone_witness :
  mutationRequired ["kube-system"]
    (corev1.ObjectMeta (Sample.secret "default" (Some Sample.issued))) = true.
Proof.
  apply (mutationRequired_antitone ["kube-system"] ignoredNamespaces
           (corev1.ObjectMeta (Sample.secret "default" (Some Sample.issued)))).
  - intros ns [<-|[]]. simpl. left. reflexivity.
  - vm_compute. reflexivity.
Defined.

(** ** Patch builder, as a function of the whole visiting order *)

Section BuilderShape.
Implicit Types (target : option (gmap string string)).
Implicit Types (patch : list patchOperation) (l : list (string * string)).

(** The operation of a turn and the next [target] do not depend on the
    patch accumulated so far. *)
Lemma step_acc target patch entry :
  updateAnnotation_step (target, patch) entry
  = (fst (updateAnnotation_step (target, []) entry),
     patch ++ snd (updateAnnotation_step (target, []) entry)).
Proof.
  destruct entry as [key value].
  destruct (decide (index target key = nostr)) as [Hk|Hk].
  - by rewrite !(step_add _ _ _ _ Hk).
  - by rewrite !(step_replace _ _ _ _ Hk).
Qed.

Lemma loop_acc l target patch :
  snd (fold_left updateAnnotation_step l (target, patch))
  = patch ++ updateAnnotation target l.
Proof.
  unfold updateAnnotation. revert target patch.
  induction l as [|entry l IH]; intros target patch; cbn [fold_left].
  - simpl. by rewrite app_nil_r.
  - rewrite (step_acc target patch entry).
    destruct (updateAnnotation_step (target, []) entry) as [target' ops] eqn:Hstep.
    simpl. rewrite (IH target' (patch ++ ops)), (IH target' ops).
    by rewrite app_assoc.
Qed.

Lemma updateAnnotation_cons_add target key value l :
  index target key = nostr ->
  updateAnnotation target ((key, value) :: l)
  = add_annotations key value :: updateAnnotation (Some ∅) l.
Proof.
  intros Hk. unfold updateAnnotation at 1. cbn [fold_left].
  rewrite (step_add _ _ _ _ Hk). apply loop_acc.
Qed.

Lemma updateAnnotation_cons_replace target key value l :
  index target key <> nostr ->
  updateAnnotation target ((key, value) :: l)
  = replace_annotation key value :: updateAnnotation target l.
Proof.
  intros Hk. unfold updateAnnotation at 1. cbn [fold_left].
  rewrite (step_replace _ _ _ _ Hk). apply loop_acc.
Qed.

Lemma updateAnnotation_all_add target l :
  (forall key, index target key = nostr) ->
  updateAnnotation target l = (fun e => add_annotations (fst e) (snd e)) <$> l.
Proof.
  revert target. induction l as [|[key value] l IH]; intros target Hall.
  - reflexivity.
  - rewrite (updateAnnotation_cons_add _ _ _ _ (Hall key)).
    rewrite (IH (Some ∅) index_empty). reflexivity.
Qed.
End BuilderShape.

(** X4. The patch is a run of [replace] operations followed by a run of
    [add] operations, one operation per entry and in the order visited: the
    replaced entries are the longest prefix of the visiting order whose keys
    all hold a non-empty value in the existing annotations, and every entry
    from the first missing or empty key on is added.  No [replace] ever
    follows an [add]. *)
Theorem updateAnnotation_replace_then_add
    (target : option (gmap string string)) (l : list (string * string)) :
  exists n,
    (n <= length l)%nat
    /\ updateAnnotation target l
       = ((fun e => replace_annotation (fst e) (snd e)) <$> take n l)
         ++ ((fun e => add_annotations (fst e) (snd e)) <$> drop n l)
    /\ Forall (fun e => index target (fst e) <> nostr) (take n l)
    /\ (forall e, l !! n = Some e -> index target (fst e) = nostr).
Proof.
  induction l as [|[key value] l IH].
  - exists 0%nat. split; [reflexivity|]. split; [reflexivity|].
    split; [constructor | intros e He; discriminate].
  - destruct (decide (index target key = nostr)) as [Hk|Hk].
    + exists 0%nat. split; [simpl; lia|]. split; [|split].
      * rewrite (updateAnnotation_cons_add _ _ _ _ Hk).
        rewrite (updateAnnotation_all_add (Some ∅) l index_empty). reflexivity.
      * constructor.
      * intros e [= <-]. exact Hk.
    + destruct IH as (n & Hn & Hshape & Hfull & Hstop).
      exists (S n). split; [simpl; lia|]. split; [|split].
      * rewrite (updateAnnotation_cons_replace _ _ _ _ Hk), Hshape. reflexivity.
      * simpl. constructor; [exact Hk | exact Hfull].
      * intros e He. apply Hstop. exact He.
Qed.

(** X5. When the existing annotations hold no non-empty value, as a nil map
    and an empty map do, the patch is one [add] on the container per entry,
    in the order visited; a nil and an empty map give the same patch. *)
Theorem updateAnnotation_nothing_existing
    (target : option (gmap string string)) (l : list (string * string)) :
  (forall key, index target key = nostr) ->
  updateAnnotation target l = (fun e => add_annotations (fst e) (snd e)) <$> l
  /\ updateAnnotation target l = updateAnnotation None l
  /\ updateAnnotation target l = updateAnnotation (Some ∅) l.
Proof.
  intros Hall.
  rewrite (updateAnnotation_all_add target l Hall).
  rewrite (updateAnnotation_all_add None l (fun _ => eq_refl)).
  rewrite (updateAnnotation_all_add (Some ∅) l index_empty).
  done.
Qed.

Lemma updateAnnotation_nothing_existing_witness :
  updateAnnotation (Some {[ "team" := nostr ]}) [("team", "payments"); ("tier", "gold")]
  = [add_annotations "team" "payments"; add_annotations "tier" "gold"]
  /\ updateAnnotation (Some {[ "team" := nostr ]}) [("team", "payments"); ("tier", "gold")]
     = updateAnnotation None [("team", "payments"); ("tier", "gold")]
  /\ updateAnnotation (Some {[ "team" := nostr ]}) [("team", "payments"); ("tier", "gold")]
     = updateAnnotation (Some ∅) [("team", "payments"); ("tier", "gold")].
Proof.
  apply (updateAnnotation_nothing_existing (Some {[ "team" := nostr ]})
           [("team", "payments"); ("tier", "gold")]).
  intros key. unfold index.
  destruct (decide (key = "team")) as [->|Hne].
  - rewrite lookup_singleton_eq. reflexivity.
  - rewrite lookup_singleton_ne by congruence. reflexivity.
Defined.

(** X6. Building the patch for two runs of entries, one after the other,
    gives the patch of the first run followed by the patch of the second:
    the second run is built against the same existing annotations when every
    key of the first run held a non-empty value, and is all [add] as soon as
    one key of the first run was missing or empty. *)
Theorem updateAnnotation_app
    (target : option (gmap string string)) (l1 l2 : list (string * string)) :
  (Forall (fun e => index target (fst e) <> nostr) l1 ->
   updateAnnotation target (l1 ++ l2)
   = updateAnnotation target l1 ++ updateAnnotation target l2)
  /\ (Exists (fun e => index target (fst e) = nostr) l1 ->
      updateAnnotation target (l1 ++ l2)
      = updateAnnotation target l1
        ++ ((fun e => add_annotations (fst e) (snd e)) <$> l2)).
Proof.
  split.
  - induction l1 as [|[key value] l1 IH]; intros Hfull.
    + reflexivity.
    + apply Forall_cons in Hfull as [Hk Hfull]. simpl in Hk.
      rewrite <- app_comm_cons.
      rewrite !(updateAnnotation_cons_replace _ _ _ _ Hk).
      rewrite (IH Hfull). reflexivity.
  - induction l1 as [|[key value] l1 IH]; intros Hempty.
    + by apply Exists_nil in Hempty.
    + rewrite <- app_comm_cons.
      destruct (decide (index target key = nostr)) as [Hk|Hk].
      * rewrite !(updateAnnotation_cons_add _ _ _ _ Hk).
        rewrite !(updateAnnotation_all_add (Some ∅) _ index_empty).
        rewrite fmap_app. reflexivity.
      * apply Exists_cons in Hempty as [Hhere|Hlater]; [by destruct Hk|].
        rewrite !(updateAnnotation_cons_replace _ _ _ _ Hk).
        rewrite (IH Hlater). reflexivity.
Qed.

Lemma updateAnnotation_app_witness :
  updateAnnotation (Some {[ "k" := "old" ]}) ([("k", "new")] ++ [("a", "1")])
  = updateAnnotation (Some {[ "k" := "old" ]}) [("k", "new")]
    ++ updateAnnotation (Some {[ "k" := "old" ]}) [("a", "1")]
  /\ updateAnnotation (Some {[ "k" := "old" ]}) ([("a", "1")] ++ [("k", "new")])
     = updateAnnotation (Some {[ "k" := "old" ]}) [("a", "1")]
       ++ [add_annotations "k" "new"].
Proof.
  split.
  - apply (proj1 (updateAnnotation_app (Some {[ "k" := "old" ]})
                    [("k", "new")] [("a", "1")])).
    constructor; [|constructor]. vm_compute. discriminate.
  - apply (proj2 (updateAnnotation_app (Some {[ "k" := "old" ]})
                    [("a", "1")] [("k", "new")])).
    constructor. vm_compute. reflexivity.
Defined.

(** ** The handler, end to end *)

Section ServeRuns.
Context `{rt : Runtime}.

Lemma Write_sent w b c :
  http.status w = Some c -> http.status (fst (http.Write w b)) = Some c.
Proof.
  intros Hw. unfold http.Write. rewrite (WriteHeader_sent _ _ _ Hw).
  by destruct (conn_Write b).
Qed.

Lemma mutate_without_request ar :
  Review.Request ar = None ->
  mutate ar = Panic "invalid memory address or nil pointer dereference".
Proof. unfold mutate. by intros ->. Qed.

Lemma mutate_with_request ar req :
  Review.Request ar = Some req -> exists resp, mutate ar = Return resp.
Proof.
  unfold mutate. intros ->.
  destruct (json_Unmarshal_Secret _) as [secret|err]; [|by eexists].
  destruct (negb _); [by eexists|].
  destruct (createPatch _ _); by eexists.
Qed.

(** The envelope built from the outcome of the decision step. *)
Lemma serve_answers r ar status admissionResponse :
  read_body r <> nostr ->
  http.Header_Get (http.Header r) "Content-Type" = "application/json" ->
  deserializer_Decode (read_body r) = (ar, status) ->
  match status with
  | Some err => Return (Some (failed err))
  | None =>
      if String.eqb (http.URL_Path r) "/mutate" then
        resp <- mutate ar ;; Return (Some resp)
      else Return None
  end = Return admissionResponse ->
  exists out rv,
    serve http.fresh r = Return out
    /\ envelope out = Some rv
    /\ rv = match admissionResponse with
            | Some resp =>
                {| Review.Request := None;
                   Review.Response :=
                     Some match Review.Request ar with
                          | Some req => Resp.setUID resp (Req.UID req)
                          | None => resp
                          end |}
            | None => Review.zero
            end
    /\ http.status (writer out)
       = Some match json_Marshal_review rv with
              | inl _ => http.StatusOK
              | inr _ => http.StatusInternalServerError
              end
    /\ forall encoded,
         json_Marshal_review rv = inl encoded ->
         conn_Write encoded = None ->
         http.sent (writer out) = [encoded].
Proof.
  intros Hbody Htype Hdecode Hstep.
  destruct (serve_replies r ar status admissionResponse Hbody Htype Hdecode Hstep)
    as (out & Hrun & Henv & Hwire).
  eexists out, _. split; [exact Hrun|]. split; [exact Henv|].
  split; [reflexivity|].
  destruct (json_Marshal_review _) as [encoded|err] eqn:Henc.
  - destruct (Hwire _ encoded Henv Henc) as [Hstatus Hsent].
    split; [exact Hstatus|]. intros encoded' [= <-]. exact Hsent.
  - split; [|discriminate].
    revert Hrun. unfold serve.
    rewrite (length_nonempty _ Hbody), Htype, Hdecode. simpl.
    rewrite Hstep. simpl. rewrite Henc.
    pose proof (Error_status ("could not encode response: " +:+ err)
                  http.StatusInternalServerError) as Hfail.
    pose proof (Write_sent _ nostr _ Hfail) as Hkept.
    destruct (http.Write _ nostr) as [w werr]. simpl in Hkept.
    intros [= <-]. simpl.
    destruct werr as [werr|]; [|exact Hkept].
    exact (Error_sent _ _ _ _ Hkept).
Qed.

(** Every finished run that built an envelope went through the decision
    step. *)
Lemma serve_step r w out rv :
  serve w r = Return out ->
  envelope out = Some rv ->
  read_body r <> nostr
  /\ http.Header_Get (http.Header r) "Content-Type" = "application/json"
  /\ exists ar status admissionResponse,
       deserializer_Decode (read_body r) = (ar, status)
       /\ match status with
          | Some err => Return (Some (failed err))
          | None =>
              if String.eqb (http.URL_Path r) "/mutate" then
                resp <- mutate ar ;; Return (Some resp)
              else Return None
          end = Return admissionResponse
       /\ rv = match admissionResponse with
               | Some resp =>
                   {| Review.Request := None;
                      Review.Response :=
                        Some match Review.Request ar with
                             | Some req => Resp.setUID resp (Req.UID req)
                             | None => resp
                             end |}
               | None => Review.zero
               end.
Proof.
  intros Hrun Henv.
  destruct (serve_envelope _ _ _ _ Hrun Henv)
    as (Hbody & Htype & ar & status & Hdecode & Hcases).
  split; [exact Hbody|]. split; [exact Htype|].
  exists ar, status.
  destruct Hcases as [(err & -> & ->) | [(resp & -> & Hpath & Hmutate & ->)
                                        | (-> & Hpath & ->)]].
  - exists (Some (failed err)). by repeat split.
  - exists (Some resp). split; [exact Hdecode|]. split; [|reflexivity].
    rewrite Hpath, Hmutate. reflexivity.
  - exists None. split; [exact Hdecode|]. split; [|reflexivity].
    apply String.eqb_neq in Hpath. rewrite Hpath. reflexivity.
Qed.
End ServeRuns.

(** X7. The handler panics on exactly one kind of request: a non-empty body
    of content type [application/json], sent to [/mutate], whose envelope
    decodes without error to a review that holds no request.  [mutate] then
    reads a field of the nil request.  Every other request gets an answer. *)
Theorem serve_panics_iff `{rt : Runtime} (w : http.ResponseWriter) (r : http.Request) :
  (exists reason, serve w r = Panic reason)
  <-> read_body r <> nostr
      /\ http.Header_Get (http.Header r) "Content-Type" = "application/json"
      /\ http.URL_Path r = "/mutate"
      /\ exists ar, deserializer_Decode (read_body r) = (ar, None)
                    /\ Review.Request ar = None.
Proof.
  split.
  - intros [reason Hrun]. revert Hrun. unfold serve.
    destruct (Nat.eqb (String.length (read_body r)) 0) eqn:Hlen; [discriminate|].
    assert (Hbody : read_body r <> nostr).
    { intros Heq. rewrite Heq in Hlen. discriminate. }
    destruct (String.eqb_spec (http.Header_Get (http.Header r) "Content-Type")
                "application/json") as [Htype|Htype]; simpl; [|discriminate].
    destruct (deserializer_Decode (read_body r)) as [ar status] eqn:Hdecode.
    destruct status as [err|]; simpl.
    { destruct (json_Marshal_review _); destruct (http.Write _ _) as [w' [?|]];
        discriminate. }
    destruct (String.eqb_spec (http.URL_Path r) "/mutate") as [Hpath|Hpath].
    + destruct (Review.Request ar) as [req|] eqn:Hreq.
      * destruct (mutate_with_request ar req Hreq) as [resp ->]. simpl.
        destruct (json_Marshal_review _); destruct (http.Write _ _) as [w' [?|]];
          discriminate.
      * intros _. repeat (split; [assumption|]). by exists ar.
    + simpl. destruct (json_Marshal_review _); destruct (http.Write _ _) as [w' [?|]];
        discriminate.
  - intros (Hbody & Htype & Hpath & ar & Hdecode & Hreq).
    eexists. unfold serve.
    rewrite (length_nonempty _ Hbody), Htype, Hdecode, Hpath. simpl.
    rewrite (mutate_without_request ar Hreq). reflexivity.
Qed.

Lemma serve_panics_iff_witness :
  exists reason,
    @serve Sample.rt http.fresh (Sample.post "/mutate" "review/no-request")
    = Panic reason.
Proof.
  apply (proj2 (@serve_panics_iff Sample.rt http.fresh
                  (Sample.post "/mutate" "review/no-request"))).
  split; [discriminate|]. split; [reflexivity|]. split; [reflexivity|].
  exists Review.zero. split; reflexivity.
Defined.

(** X8. In every response, [Allowed] is true exactly when there is no status
    message: the responses that grant the request carry no message, and the
    ones built on a decode or encode error carry the message and do not
    grant.  This holds for what [mutate] returns and for what [serve] puts
    in the reply envelope. *)
Theorem allowed_iff_no_message `{rt : Runtime} :
  (forall (ar : Review.t) (resp : Resp.t),
      mutate ar = Return resp ->
      (Resp.Allowed resp = true <-> Resp.Result resp = None))
  /\ (forall (w : http.ResponseWriter) (r : http.Request) (out : served)
             (rv : Review.t) (resp : Resp.t),
      serve w r = Return out ->
      envelope out = Some rv ->
      Review.Response rv = Some resp ->
      (Resp.Allowed resp = true <-> Resp.Result resp = None)).
Proof.
  assert (Hmutate : forall ar resp, mutate ar = Return resp ->
             (Resp.Allowed resp = true <-> Resp.Result resp = None)).
  { intros ar resp Hrun.
    destruct (mutate_cases ar resp Hrun) as (req & _ & Hcases).
    destruct Hcases as [(err & _ & ->) | [(secret & _ & _ & ->)
                       | [(secret & err & _ & _ & ->)
                       | (secret & patchBytes & _ & _ & _ & ->)]]];
      simpl; split; done. }
  split; [exact Hmutate|].
  intros w r out rv resp Hrun Henv Hresp.
  destruct (serve_envelope _ _ _ _ Hrun Henv)
    as (_ & _ & ar & status & _ & Hcases).
  destruct Hcases as [(err & _ & ->) | [(resp0 & _ & _ & Hmut & ->)
                                       | (_ & _ & ->)]].
  - simpl in Hresp. injection Hresp as <-.
    destruct (Review.Request ar); simpl; split; done.
  - simpl in Hresp. injection Hresp as <-.
    specialize (Hmutate ar resp0 Hmut).
    destruct (Review.Request ar); exact Hmutate.
  - discriminate.
Qed.

Lemma allowed_iff_no_message_witness :
  (Resp.Allowed (failed "json: unsupported value") = true
   <-> Resp.Result (failed "json: unsupported value") = None)
  /\ (Resp.Allowed (Sample.patched "705ab4f5") = true
      <-> Resp.Result (Sample.patched "705ab4f5") = None).
Proof.
  split.
  - apply (proj1 (@allowed_iff_no_message Faulty.no_patch)
             (Sample.review "705ab4f5" "secret/plain")).
    vm_compute. reflexivity.
  - apply (proj2 (@allowed_iff_no_message Sample.rt)
             http.fresh (Sample.post "/mutate" "review/plain")
             (Sample.delivered (Sample.reply (Sample.patched "705ab4f5")))
             (Sample.reply (Sample.patched "705ab4f5"))).
    + vm_compute. reflexivity.
    + reflexivity.
    + reflexivity.
Defined.

(** X9. A run always fixes the HTTP status, and it is one of 200, 400, 415
    and 500.  When the run builds a reply envelope, the status is 200 if the
    envelope encodes and 500 if it does not; a failing write to the
    connection does not change it, because the status line has gone out
    by then. *)
Theorem serve_status `{rt : Runtime} (r : http.Request) (out : served) :
  serve http.fresh r = Return out ->
  (http.status (writer out) = Some 200 \/ http.status (writer out) = Some 400
   \/ http.status (writer out) = Some 415 \/ http.status (writer out) = Some 500)
  /\ forall rv,
       envelope out = Some rv ->
       http.status (writer out)
       = Some match json_Marshal_review rv with
              | inl _ => 200
              | inr _ => 500
              end.
Proof.
  intros Hrun.
  assert (Hbuilt : forall rv, envelope out = Some rv ->
            http.status (writer out)
            = Some match json_Marshal_review rv with
                   | inl _ => 200
                   | inr _ => 500
                   end).
  { intros rv Henv.
    destruct (serve_step r _ out rv Hrun Henv)
      as (Hbody & Htype & ar & status & resp & Hdecode & Hstep & Hrv).
    destruct (serve_answers r ar status resp Hbody Htype Hdecode Hstep)
      as (out' & rv' & Hrun' & Henv' & Hrv' & Hstatus & _).
    rewrite Hrun in Hrun'. injection Hrun' as <-.
    rewrite Henv in Henv'. injection Henv' as <-. exact Hstatus. }
  split; [|exact Hbuilt].
  destruct (envelope out) as [rv|] eqn:Henv.
  - rewrite (Hbuilt rv eq_refl).
    destruct (json_Marshal_review rv); [left | right; right; right]; reflexivity.
  - destruct (decide (read_body r = nostr)) as [Hbody|Hbody].
    + rewrite (serve_empty_body _ r Hbody) in Hrun. injection Hrun as <-.
      right. left. apply Error_status.
    + destruct (decide (http.Header_Get (http.Header r) "Content-Type"
                        = "application/json")) as [Htype|Htype].
      * exfalso.
        destruct (deserializer_Decode (read_body r)) as [ar status] eqn:Hdecode.
        revert Hrun. unfold serve.
        rewrite (length_nonempty _ Hbody), Htype, Hdecode. simpl.
        destruct (match status with
                  | Some err => Return (Some (failed err))
                  | None => _
                  end) as [resp|reason]; [|discriminate].
        simpl. destruct (json_Marshal_review _);
          destruct (http.Write _ _) as [w' [?|]];
          intros [= <-]; discriminate.
      * rewrite (serve_wrong_type _ r Hbody Htype) in Hrun. injection Hrun as <-.
        right. right. left. apply Error_status.
Qed.

Lemma serve_status_witness :
  (http.status (writer (Sample.delivered (Sample.reply (Sample.patched "705ab4f5"))))
   = Some 200)
  /\ (exists out rv,
       @serve Faulty.no_conn http.fresh (Sample.post "/mutate" "review/plain")
       = Return out
       /\ envelope out = Some rv
       /\ http.sent (writer out) = []
       /\ http.status (writer out) = Some 200)
  /\ exists out rv,
       @serve Faulty.no_review http.fresh (Sample.post "/mutate" "review/plain")
       = Return out
       /\ envelope out = Some rv
       /\ http.status (writer out) = Some 500.
Proof.
  split; [|split].
  - apply (proj2 (@serve_status Sample.rt (Sample.post "/mutate" "review/plain")
                    (Sample.delivered (Sample.reply (Sample.patched "705ab4f5")))
                    ltac:(vm_compute; reflexivity))
             (Sample.reply (Sample.patched "705ab4f5")) eq_refl).
  - eexists _, (Sample.reply (Sample.patched "705ab4f5")).
    split; [vm_compute; reflexivity|]. split; [reflexivity|].
    split; [reflexivity|].
    apply (proj2 (@serve_status Faulty.no_conn
                    (Sample.post "/mutate" "review/plain") _
                    ltac:(vm_compute; reflexivity))
             (Sample.reply (Sample.patched "705ab4f5")) eq_refl).
  - eexists _, (Sample.reply (Sample.patched "705ab4f5")).
    split; [vm_compute; reflexivity|]. split; [reflexivity|].
    apply (proj2 (@serve_status Faulty.no_review
                    (Sample.post "/mutate" "review/plain") _
                    ltac:(vm_compute; reflexivity))
             (Sample.reply (Sample.patched "705ab4f5")) eq_refl).
Defined.

(** X10. A reply envelope never holds a request.  The UID of its response,
    when it has one, is the UID of the request that the decoder left in the
    review, and the empty string when the decoder left none; this covers the
    responses built on a decode error, where the review may be half
    filled. *)
Theorem serve_reply_shape `{rt : Runtime}
    (w : http.ResponseWriter) (r : http.Request) (out : served) (rv : Review.t) :
  serve w r = Return out ->
  envelope out = Some rv ->
  Review.Request rv = None
  /\ forall resp,
       Review.Response rv = Some resp ->
       Resp.UID resp
       = match Review.Request (fst (deserializer_Decode (read_body r))) with
         | Some req => Req.UID req
         | None => nostr
         end.
Proof.
  intros Hrun Henv.
  destruct (serve_envelope _ _ _ _ Hrun Henv)
    as (_ & _ & ar & status & Hdecode & Hcases).
  rewrite Hdecode. simpl.
  destruct Hcases as [(err & _ & ->) | [(resp0 & _ & _ & Hmut & ->)
                                       | (_ & _ & ->)]].
  - split; [reflexivity|]. intros resp [= <-].
    by destruct (Review.Request ar).
  - split; [reflexivity|]. intros resp [= <-].
    destruct (mutate_cases ar resp0 Hmut) as (req & Hreq & _).
    rewrite Hreq. reflexivity.
  - split; [reflexivity|]. discriminate.
Qed.

Lemma serve_reply_shape_witness :
  Review.Request (Sample.reply (Sample.patched "705ab4f5")) = None
  /\ Resp.UID (Sample.patched "705ab4f5") = "705ab4f5".
Proof.
  destruct (@serve_reply_shape Sample.rt http.fresh
              (Sample.post "/mutate" "review/plain")
              (Sample.delivered (Sample.reply (Sample.patched "705ab4f5")))
              (Sample.reply (Sample.patched "705ab4f5")))
    as [Hreq Huid].
  - vm_compute. reflexivity.
  - reflexivity.
  - split; [exact Hreq|]. exact (Huid (Sample.patched "705ab4f5") eq_refl).
Defined.

(** X11. A request to [/mutate] whose envelope and Secret decode and for
    which the policy says Skip is granted unchanged: the reply envelope
    holds the request's UID, [Allowed] true, and no patch, patch type or
    status message; once encoded it goes out with status 200. *)
Theorem serve_skips `{rt : Runtime}
    (r : http.Request) (ar : Review.t) (req : Req.t) (secret : corev1.Secret) :
  read_body r <> nostr ->
  http.Header_Get (http.Header r) "Content-Type" = "application/json" ->
  http.URL_Path r = "/mutate" ->
  deserializer_Decode (read_body r) = (ar, None) ->
  Review.Request ar = Some req ->
  json_Unmarshal_Secret (runtime.Raw (Req.Object req)) = inl secret ->
  mutationRequired ignoredNamespaces (corev1.ObjectMeta secret) = false ->
  exists out rv,
    serve http.fresh r = Return out
    /\ envelope out = Some rv
    /\ rv = {| Review.Request := None;
               Review.Response :=
                 Some {| Resp.UID := Req.UID req; Resp.Allowed := true;
                         Resp.Result := None; Resp.Patch := None;
                         Resp.PatchType := None |} |}
    /\ forall encoded,
         json_Marshal_review rv = inl encoded ->
         http.status (writer out) = Some 200
         /\ (conn_Write encoded = None -> http.sent (writer out) = [encoded]).
Proof.
  intros Hbody Htype Hpath Hdecode Hreq Hsecret Hpolicy.
  assert (Hstep : (if String.eqb (http.URL_Path r) "/mutate"
                   then resp <- mutate ar ;; Return (Some resp)
                   else Return None)
                  = Return (Some {| Resp.UID := nostr; Resp.Allowed := true;
                                    Resp.Result := None; Resp.Patch := None;
                                    Resp.PatchType := None |})).
  { rewrite Hpath. unfold mutate. rewrite Hreq, Hsecret, Hpolicy. reflexivity. }
  destruct (serve_answers r ar None _ Hbody Htype Hdecode Hstep)
    as (out & rv & Hrun & Henv & Hrv & Hstatus & Hsent).
  rewrite Hreq in Hrv. exists out, rv.
  split; [exact Hrun|]. split; [exact Henv|]. split; [exact Hrv|].
  intros encoded Henc. rewrite Henc in Hstatus.
  split; [exact Hstatus | exact (Hsent encoded Henc)].
Qed.

Lemma serve_skips_witness :
  exists out rv,
    @serve Sample.rt http.fresh (Sample.post "/mutate" "review/system") = Return out
    /\ envelope out = Some rv
    /\ rv = {| Review.Request := None;
               Review.Response :=
                 Some {| Resp.UID := "c0ffee00"; Resp.Allowed := true;
                         Resp.Result := None; Resp.Patch := None;
                         Resp.PatchType := None |} |}
    /\ http.status (writer out) = Some 200
    /\ http.sent (writer out) = [Sample.print_review rv].
Proof.
  destruct (@serve_skips Sample.rt (Sample.post "/mutate" "review/system")
              (Sample.review "c0ffee00" "secret/system")
              (Sample.request "c0ffee00" "secret/system")
              (Sample.secret "kube-system" (Some Sample.issued)))
    as (out & rv & Hrun & Henv & Hrv & Hwire).
  - discriminate.
  - reflexivity.
  - reflexivity.
  - reflexivity.
  - reflexivity.
  - reflexivity.
  - vm_compute. reflexivity.
  - destruct (Hwire (Sample.print_review rv) eq_refl) as [Hstatus Hsent].
    exists out, rv. repeat (split; [assumption|]). exact (Hsent eq_refl).
Defined.

(** X12. A request to [/mutate] whose envelope and Secret decode and for
    which the policy says Mutate gets one of two replies, both bearing the
    request's UID.  When [json.Marshal] encodes the patch, the response has
    [Allowed] true, the encoded one-operation patch that adds
    [kubed.appscode.com/sync: true] and the patch type [JSONPatch]; when it
    fails, the response has the encoder's error as status message, is not
    allowed and has no patch.  Either way the status is 200 once the
    envelope is encoded. *)
Theorem serve_patches `{rt : Runtime}
    (r : http.Request) (ar : Review.t) (req : Req.t) (secret : corev1.Secret) :
  read_body r <> nostr ->
  http.Header_Get (http.Header r) "Content-Type" = "application/json" ->
  http.URL_Path r = "/mutate" ->
  deserializer_Decode (read_body r) = (ar, None) ->
  Review.Request ar = Some req ->
  json_Unmarshal_Secret (runtime.Raw (Req.Object req)) = inl secret ->
  mutationRequired ignoredNamespaces (corev1.ObjectMeta secret) = true ->
  exists out rv,
    serve http.fresh r = Return out
    /\ envelope out = Some rv
    /\ rv = {| Review.Request := None;
               Review.Response :=
                 Some match json_Marshal_patch
                              [ {| Op := "add"; Path := "/metadata/annotations";
                                   Value := MapValue {[ syncAnnotationKey := "true" ]} |} ]
                      with
                      | inl patchBytes =>
                          {| Resp.UID := Req.UID req; Resp.Allowed := true;
                             Resp.Result := None; Resp.Patch := Some patchBytes;
                             Resp.PatchType := Some v1beta1.PatchTypeJSONPatch |}
                      | inr err =>
                          {| Resp.UID := Req.UID req; Resp.Allowed := false;
                             Resp.Result := Some {| metav1.Message := err |};
                             Resp.Patch := None; Resp.PatchType := None |}
                      end |}
    /\ forall encoded,
         json_Marshal_review rv = inl encoded ->
         http.status (writer out) = Some 200
         /\ (conn_Write encoded = None -> http.sent (writer out) = [encoded]).
Proof.
  intros Hbody Htype Hpath Hdecode Hreq Hsecret Hpolicy.
  destruct (mutate_with_request ar req Hreq) as [resp Hmutate].
  assert (Hresp : resp = match json_Marshal_patch
                                 [ {| Op := "add"; Path := "/metadata/annotations";
                                      Value := MapValue {[ syncAnnotationKey := "true" ]} |} ]
                         with
                         | inl patchBytes =>
                             {| Resp.UID := nostr; Resp.Allowed := true;
                                Resp.Result := None; Resp.Patch := Some patchBytes;
                                Resp.PatchType := Some v1beta1.PatchTypeJSONPatch |}
                         | inr err => failed err
                         end).
  { revert Hmutate. unfold mutate. rewrite Hreq, Hsecret, Hpolicy. simpl.
    unfold createPatch. rewrite sync_patch. simpl.
    destruct (json_Marshal_patch _); by intros [= <-]. }
  assert (Hstep : (if String.eqb (http.URL_Path r) "/mutate"
                   then resp <- mutate ar ;; Return (Some resp)
                   else Return None) = Return (Some resp)).
  { rewrite Hpath, Hmutate. reflexivity. }
  destruct (serve_answers r ar None _ Hbody Htype Hdecode Hstep)
    as (out & rv & Hrun & Henv & Hrv & Hstatus & Hsent).
  rewrite Hreq in Hrv. exists out, rv.
  split; [exact Hrun|]. split; [exact Henv|]. split.
  - rewrite Hrv, Hresp. by destruct (json_Marshal_patch _).
  - intros encoded Henc. rewrite Henc in Hstatus.
    split; [exact Hstatus | exact (Hsent encoded Henc)].
Qed.

Lemma serve_patches_witness :
  (exists out,
     @serve Sample.rt http.fresh (Sample.post "/mutate" "review/issued") = Return out
     /\ envelope out = Some (Sample.reply (Sample.patched "11d0c1e2"))
     /\ http.status (writer out) = Some 200
     /\ http.sent (writer out)
        = [Sample.print_review (Sample.reply (Sample.patched "11d0c1e2"))])
  /\ (exists out,
     @serve Faulty.no_patch http.fresh (Sample.post "/mutate" "review/issued")
     = Return out
     /\ envelope out
        = Some (Sample.reply
                  {| Resp.UID := "11d0c1e2"; Resp.Allowed := false;
                     Resp.Result :=
                       Some {| metav1.Message := "json: unsupported value" |};
                     Resp.Patch := None; Resp.PatchType := None |})
     /\ http.status (writer out) = Some 200).
Proof.
  split.
  - destruct (@serve_patches Sample.rt (Sample.post "/mutate" "review/issued")
                (Sample.review "11d0c1e2" "secret/issued")
                (Sample.request "11d0c1e2" "secret/issued")
                (Sample.secret "default" (Some Sample.issued)))
      as (out & rv & Hrun & Henv & Hrv & Hwire);
      [discriminate | reflexivity | reflexivity | reflexivity | reflexivity
       | reflexivity | vm_compute; reflexivity |].
    destruct (Hwire (Sample.print_review rv) eq_refl) as [Hstatus Hsent].
    specialize (Hsent eq_refl). rewrite Hrv in Henv, Hsent.
    exists out. split; [exact Hrun|].
    split; [exact Henv|]. split; [exact Hstatus | exact Hsent].
  - destruct (@serve_patches Faulty.no_patch (Sample.post "/mutate" "review/issued")
                (Sample.review "11d0c1e2" "secret/issued")
                (Sample.request "11d0c1e2" "secret/issued")
                (Sample.secret "default" (Some Sample.issued)))
      as (out & rv & Hrun & Henv & Hrv & Hwire);
      [discriminate | reflexivity | reflexivity | reflexivity | reflexivity
       | reflexivity | vm_compute; reflexivity |].
    destruct (Hwire (Sample.print_review rv) eq_refl) as [Hstatus _].
    rewrite Hrv in Henv.
    exists out. split; [exact Hrun|]. split; [exact Henv | exact Hstatus].
Defined.

(** X13. The patch only ever touches annotations.  Each of its operations
    is either an [add] on [/metadata/annotations] whose value is a one-key
    map taken from an entry given to the builder, or a [replace] on
    [/metadata/annotations/<key>] for the key of such an entry, and a key
    that is replaced holds a non-empty value in the existing annotations.
    There is no [remove] and no path outside the annotations. *)
Theorem updateAnnotation_operations
    (target : option (gmap string string)) (l : list (string * string))
    (op : patchOperation) :
  In op (updateAnnotation target l) ->
  exists key value,
    In (key, value) l
    /\ (op = {| Op := "add"; Path := "/metadata/annotations";
                Value := MapValue {[ key := value ]} |}
        \/ (op = {| Op := "replace"; Path := "/metadata/annotations/" +:+ key;
                    Value := StringValue value |}
            /\ index target key <> nostr)).
Proof.
  induction l as [|[key value] l IH].
  - intros [].
  - destruct (decide (index target key = nostr)) as [Hk|Hk].
    + rewrite (updateAnnotation_cons_add _ _ _ _ Hk).
      rewrite (updateAnnotation_all_add (Some ∅) l index_empty).
      intros [<-|Hin].
      * exists key, value. split; [by left | by left].
      * apply in_map_iff in Hin as ([k v] & <- & Hin).
        exists k, v. split; [by right | by left].
    + rewrite (updateAnnotation_cons_replace _ _ _ _ Hk).
      intros [<-|Hin].
      * exists key, value. split; [by left | by right].
      * destruct (IH Hin) as (k & v & Hkv & Hop).
        exists k, v. split; [by right | exact Hop].
Qed.

Lemma updateAnnotation_operations_witness :
  exists key value,
    In (key, value) [("k", "new"); ("a", "1")]
    /\ (replace_annotation "k" "new"
        = {| Op := "add"; Path := "/metadata/annotations";
             Value := MapValue {[ key := value ]} |}
        \/ (replace_annotation "k" "new"
            = {| Op := "replace"; Path := "/metadata/annotations/" +:+ key;
                 Value := StringValue value |}
            /\ index (Some {[ "k" := "old" ]}) key <> nostr)).
Proof.
  apply (updateAnnotation_operations (Some {[ "k" := "old" ]})
           [("k", "new"); ("a", "1")] (replace_annotation "k" "new")).
  vm_compute. left. reflexivity.
Defined.
